(** * intro-pytorch.ipynb: the notebook as a program over the torch API

    The repository is one Jupyter notebook, [python/intro-pytorch.ipynb].
    Its ten code cells are embedded here statement by statement.  Every
    statement is an action over

    - the Python module namespace (the notebook's globals), and
    - the torch runtime, which is external to the repository and is
      therefore a parameter: a [Runtime] answers each API call with a
      value or with an exception, and threads its own opaque [world].

    Running an action yields the list of API calls and prints it made (its
    trace), the final state and either a result or the error that stopped
    it.  Theorems hold for every [Runtime]; a small concrete runtime,
    [Ref], exhibits inputs on which their hypotheses hold. *)

From Stdlib Require Import String List ZArith Bool Lia Ascii.
From Stdlib Require Import DecimalString.
From Stdlib Require Import DecimalN.
Import ListNotations.
Local Open Scope string_scope.
Local Open Scope Z_scope.

Set Implicit Arguments.

(** ** Python-side data *)

(** [torch.FloatTensor], [torch.cuda.LongTensor], ...: the tensor classes
    the notebook names. *)
Inductive device := CPU | CUDA.
Inductive dtype := Float | Long | Byte.
Record tensor_type := TensorType { tt_device : device; tt_dtype : dtype }.

(** The object types of the runtime, and the two float primitives of
    Python itself that the notebook uses: reading a decimal literal
    ([1e-4] is [float_of_decimal 1 (-4)]) and [str] of a float. *)
Class Objects := {
  tensor : Type;
  variable : Type;
  module : Type;
  criterion : Type;
  pyfloat : Type;
  exn : Type;
  float_of_decimal : Z -> Z -> pyfloat;
  str_float : pyfloat -> string
}.

Section Api.
Context {Ob : Objects}.

(** The torch entry points the notebook calls, indexed by the type of
    what they return.  Arguments are the ones written in the notebook. *)
Inductive call : Type -> Type :=
| ImportTorch : call unit                          (* import torch *)
| TorchVersion : call string                       (* torch.__version__ *)
| CudaIsAvailable : call bool                      (* torch.cuda.is_available() *)
| NewTensor (ty : tensor_type) (n : Z) : call tensor   (* torch.cuda.FloatTensor(2) *)
| TensorOfRows (ty : tensor_type) (rows : list (list Z)) : call tensor
                                                   (* FloatTensor([[1, 2, 3], [4, 5, 6]]) *)
| Zero_ (t : tensor) : call tensor                 (* t.zero_() *)
| Randn (shape : list Z) : call tensor             (* torch.randn(...) *)
| Cuda (t : tensor) : call tensor                  (* t.cuda() *)
| Add (a b : tensor) : call tensor                 (* a + b *)
| StrTensor (t : tensor) : call string             (* str(t) *)
| SetDefaultTensorType (name : string) : call unit (* torch.set_default_tensor_type(name) *)
| ImportNN : call unit                             (* import torch.nn as nn *)
| ImportVariable : call unit                       (* from torch.autograd import Variable *)
| MkVariable (t : tensor) (requires_grad : option bool) : call variable
                                                   (* Variable(t) / Variable(t, requires_grad=...) *)
| StrVariable (v : variable) : call string         (* str(v) *)
| Linear (n_in n_out : Z) : call module            (* nn.Linear(n_in, n_out) *)
| ReLU : call module                               (* nn.ReLU() *)
| Sequential (layers : list module) : call module  (* nn.Sequential(...) *)
| ModuleCuda (m : module) : call module            (* m.cuda() *)
| StrModule (m : module) : call string             (* str(m), from print(m) *)
| MSELoss (size_average : bool) : call criterion   (* nn.MSELoss(size_average=...) *)
| Forward (m : module) (x : variable) : call variable   (* m(x) *)
| CriterionApply (c : criterion) (input target : variable) : call variable
                                                   (* c(input, target) *)
| Item0 (v : variable) : call pyfloat              (* v.data[0] *)
| ZeroGrad (m : module) : call unit                (* m.zero_grad() *)
| Backward (v : variable) : call unit              (* v.backward() *)
| Parameters (m : module) : call (list variable)   (* m.parameters() *)
| GradData (p : variable) : call tensor            (* p.grad.data *)
| RMul (s : pyfloat) (t : tensor) : call tensor    (* s * t *)
| DataISub (p : variable) (u : tensor) : call unit (* p.data -= u *).

(** What a run leaves behind: each API call with its answer, and each
    string given to [print]. *)
Inductive event :=
| Ev {X : Type} (c : call X) (r : exn + X)
| Print (s : string).

(** Values a notebook name can be bound to. *)
Inductive pyval :=
| PBool (b : bool)
| PInt (n : Z)
| PFloat (f : pyfloat)
| PType (ty : tensor_type)
| PTensor (t : tensor)
| PVariable (v : variable)
| PModule (m : module)
| PCriterion (c : criterion).

(** The module namespace: the most recent binding of a name comes first. *)
Definition namespace := list (string * pyval).

Fixpoint lookup (n : string) (ns : namespace) : option pyval :=
  match ns with
  | [] => None
  | (k, v) :: ns' => if String.eqb n k then Some v else lookup n ns'
  end.

Definition bind_name (n : string) (v : pyval) (ns : namespace) : namespace :=
  (n, v) :: ns.

(** Errors: an exception raised by the runtime, or one of the two errors
    the interpreter itself raises for an unbound name or a value of the
    wrong kind. *)
Inductive error :=
| Raised (e : exn)
| NameError (n : string)
| TypeError (n : string).

End Api.

Arguments event {Ob}.
Arguments pyval {Ob}.
Arguments namespace {Ob}.
Arguments error {Ob}.

(** The torch runtime: an opaque world and its answer to each call. *)
Class Runtime {Ob : Objects} := {
  world : Type;
  handle : forall X : Type, call X -> world -> (exn + X) * world
}.

Section Script.
Context {Ob : Objects} {R : Runtime}.

Record state := State { ns : namespace; w : world }.

Record outcome (A : Type) := Outcome {
  trace : list event;
  final : state;
  result : error + A
}.

(** Actions: state in, outcome out.  There is no handler combinator:
    an error stops the action it occurs in and everything sequenced
    after it. *)
Definition M (A : Type) := state -> outcome A.

Definition ret {A} (a : A) : M A :=
  fun s => Outcome [] s (inr a).

Definition raise {A} (e : error) : M A :=
  fun s => Outcome [] s (inl e).

Definition bind {A B} (m : M A) (k : A -> M B) : M B :=
  fun s =>
    match m s with
    | Outcome tr s1 (inl e) => Outcome tr s1 (inl e)
    | Outcome tr s1 (inr a) =>
        match k a s1 with
        | Outcome tr' s2 r => Outcome (tr ++ tr') s2 r
        end
    end.


Definition invoke {X} (c : call X) : M X :=
  fun s =>
    let (r, w') := handle c (w s) in
    match r with
    | inl e => Outcome [Ev c (inl e)] (State (ns s) w') (inl (Raised e))
    | inr x => Outcome [Ev c (inr x)] (State (ns s) w') (inr x)
    end.

Definition print (line : string) : M unit :=
  fun s => Outcome [Print line] s (inr tt).

Definition load (n : string) : M pyval :=
  fun s =>
    match lookup n (ns s) with
    | Some v => Outcome [] s (inr v)
    | None => Outcome [] s (inl (NameError n))
    end.

Definition store (n : string) (v : pyval) : M unit :=
  fun s => Outcome [] (State (bind_name n v (ns s)) (w s)) (inr tt).

End Script.

Declare Scope py_scope.
Delimit Scope py_scope with py.
Notation "x <- m ;; k" := (bind m (fun x => k))
  (at level 61, m at next level, right associativity) : py_scope.
Notation "m ;; k" := (bind m (fun _ => k))
  (at level 61, right associativity) : py_scope.
Local Open Scope py_scope.

Section Notebook.
Context {Ob : Objects} {R : Runtime}.

(** A name used where a value of one kind is needed.  The kind is
    checked when the name is read; Python checks it when the value is
    used.  The two agree on every state in which the names hold values of
    the kinds the notebook binds them to, which are the states the
    theorems below speak of. *)
Definition load_bool (n : string) : M bool :=
  v <- load n ;; match v with PBool b => ret b | _ => raise (TypeError n) end.

Definition load_int (n : string) : M Z :=
  v <- load n ;; match v with PInt z => ret z | _ => raise (TypeError n) end.

Definition load_float (n : string) : M pyfloat :=
  v <- load n ;; match v with PFloat f => ret f | _ => raise (TypeError n) end.

Definition load_type (n : string) : M tensor_type :=
  v <- load n ;; match v with PType ty => ret ty | _ => raise (TypeError n) end.

Definition load_tensor (n : string) : M tensor :=
  v <- load n ;; match v with PTensor t => ret t | _ => raise (TypeError n) end.

Definition load_variable (n : string) : M variable :=
  v <- load n ;; match v with PVariable x => ret x | _ => raise (TypeError n) end.

Definition load_module (n : string) : M module :=
  v <- load n ;; match v with PModule m => ret m | _ => raise (TypeError n) end.

Definition load_criterion (n : string) : M criterion :=
  v <- load n ;; match v with PCriterion c => ret c | _ => raise (TypeError n) end.

(** ** Statements *)

Definition stmt := M unit.

(** Statements one after the other. *)
Fixpoint block (body : list stmt) : stmt :=
  match body with
  | [] => ret tt
  | s :: rest => s ;; block rest
  end.

Fixpoint for_each {A} (items : list A) (body : A -> stmt) : stmt :=
  match items with
  | [] => ret tt
  | a :: rest => body a ;; for_each rest body
  end.

(** [for target in items: body] *)
Definition py_for {A} (target : string) (inj : A -> pyval) (items : list A)
    (body : list stmt) : stmt :=
  for_each items (fun a => store target (inj a) ;; block body).

(** [if name: body], for a name that holds a bool, as [use_cuda] always
    does; the truth value of other kinds is not modelled. *)
Definition py_if (n : string) (body : list stmt) : stmt :=
  b <- load_bool n ;; if b then block body else ret tt.

(** [range(n)] *)
Definition range (n : nat) : list Z := map Z.of_nat (seq 0 n).

(** [str(b)] for a bool. *)
Definition str_bool (b : bool) : string := if b then "True" else "False".

(** ['%03i' % t]: decimal, sign first, zero-padded to three characters. *)
Fixpoint zeros (n : nat) : string :=
  match n with
  | O => ""
  | S n' => "0" ++ zeros n'
  end.

Definition fmt_03i (t : Z) : string :=
  let digits := NilZero.string_of_uint (N.to_uint (Z.abs_N t)) in
  let sign := if t <? 0 then "-" else "" in
  sign ++ zeros (3 - String.length sign - String.length digits) ++ digits.

(** [print('label' + str(name))] for a name that holds a tensor. *)
Definition print_tensor (label n : string) : stmt :=
  t <- load_tensor n ;; s <- invoke (StrTensor t) ;; print (label ++ s).

(** ** The code cells, in notebook order *)

(** Cell 1.  An import is the call that loads the module.  The names
    it binds ([torch], and [nn] and [Variable] in cell 6) are not kept in
    the namespace, and the cells that use them do not look them up: a
    cell is as in Python when it runs after the cells that import what it
    uses, as it does in every run below. *)
Definition cell1 : list stmt :=
  [ (* import torch *)
    invoke ImportTorch ].

(** Cell 2. *)
Definition cell2 : list stmt :=
  [ (* print(torch.__version__) *)
    (v <- invoke TorchVersion ;; print v) ].

(** Cell 3. *)
Definition cell3 : list stmt :=
  [ (* print('CUDA available: ' + str(torch.cuda.is_available())) *)
    (b <- invoke CudaIsAvailable ;; print ("CUDA available: " ++ str_bool b)) ].

(** Cell 4: three tensors on the GPU, each printed. *)
Definition cell4 : list stmt :=
  [ (* a = torch.cuda.FloatTensor(2).zero_() *)
    (t <- invoke (NewTensor (TensorType CUDA Float) 2) ;;
     a <- invoke (Zero_ t) ;;
     store "a" (PTensor a));
    (* print('Tensor a = ' + str(a)) *)
    print_tensor "Tensor a = " "a";
    (* b = torch.randn(2).cuda() *)
    (t <- invoke (Randn [2]) ;;
     b <- invoke (Cuda t) ;;
     store "b" (PTensor b));
    (* print('Tensor b = ' + str(b)) *)
    print_tensor "Tensor b = " "b";
    (* c = a + b *)
    (a <- load_tensor "a" ;;
     b <- load_tensor "b" ;;
     c <- invoke (Add a b) ;;
     store "c" (PTensor c));
    (* print('Tensor c = ' + str(c)) *)
    print_tensor "Tensor c = " "c" ].

(** [X = torch.cuda.X if use_cuda else torch.X] *)
Definition choose_type (target : string) (dt : dtype) : stmt :=
  b <- load_bool "use_cuda" ;;
  store target (PType (TensorType (if b then CUDA else CPU) dt)).

(** Cell 5: the tensor classes to use, and the default tensor type. *)
Definition cell5 : list stmt :=
  [ (* use_cuda = torch.cuda.is_available() *)
    (b <- invoke CudaIsAvailable ;; store "use_cuda" (PBool b));
    (* FloatTensor = torch.cuda.FloatTensor if use_cuda else torch.FloatTensor *)
    choose_type "FloatTensor" Float;
    (* LongTensor = torch.cuda.LongTensor if use_cuda else torch.LongTensor *)
    choose_type "LongTensor" Long;
    (* ByteTensor = torch.cuda.ByteTensor if use_cuda else torch.ByteTensor *)
    choose_type "ByteTensor" Byte;
    (* Tensor = FloatTensor *)
    (v <- load "FloatTensor" ;; store "Tensor" v);
    (* if use_cuda: torch.set_default_tensor_type('torch.cuda.FloatTensor') *)
    py_if "use_cuda"
      [ invoke (SetDefaultTensorType "torch.cuda.FloatTensor") ];
    (* d = FloatTensor([[1, 2, 3], [4, 5, 6]]) *)
    (ty <- load_type "FloatTensor" ;;
     d <- invoke (TensorOfRows ty [[1; 2; 3]; [4; 5; 6]]) ;;
     store "d" (PTensor d));
    (* print('Tensor d = ' + str(d)) *)
    print_tensor "Tensor d = " "d" ].

(** Cell 6. *)
Definition cell6 : list stmt :=
  [ (* import torch.nn as nn *)
    invoke ImportNN;
    (* from torch.autograd import Variable *)
    invoke ImportVariable ].

(** Cell 7: the sizes, and random input and target. *)
Definition cell7 : list stmt :=
  [ (* N, dim_in, H, dim_out = 64, 1000, 100, 10 *)
    (store "N" (PInt 64) ;; store "dim_in" (PInt 1000) ;;
     store "H" (PInt 100) ;; store "dim_out" (PInt 10));
    (* x = Variable(torch.randn(N, dim_in)) *)
    (n <- load_int "N" ;;
     d <- load_int "dim_in" ;;
     t <- invoke (Randn [n; d]) ;;
     x <- invoke (MkVariable t None) ;;
     store "x" (PVariable x));
    (* y = Variable(torch.randn(N, dim_out), requires_grad=False) *)
    (n <- load_int "N" ;;
     d <- load_int "dim_out" ;;
     t <- invoke (Randn [n; d]) ;;
     y <- invoke (MkVariable t (Some false)) ;;
     store "y" (PVariable y));
    (* print('x = ' + str(x)) *)
    (x <- load_variable "x" ;;
     s <- invoke (StrVariable x) ;;
     print ("x = " ++ s)) ].

(** Cell 8: the model. *)
Definition cell8 : list stmt :=
  [ (* model = nn.Sequential(nn.Linear(dim_in, H), nn.ReLU(),
                             nn.Linear(H, dim_out)) *)
    (i <- load_int "dim_in" ;;
     h <- load_int "H" ;;
     l1 <- invoke (Linear i h) ;;
     r <- invoke ReLU ;;
     h' <- load_int "H" ;;
     o <- load_int "dim_out" ;;
     l2 <- invoke (Linear h' o) ;;
     m <- invoke (Sequential [l1; r; l2]) ;;
     store "model" (PModule m));
    (* if use_cuda: model.cuda() *)
    py_if "use_cuda"
      [ (m <- load_module "model" ;; invoke (ModuleCuda m) ;; ret tt) ];
    (* print(model) *)
    (m <- load_module "model" ;;
     s <- invoke (StrModule m) ;;
     print s) ].

(** Cell 9: the loss function. *)
Definition cell9 : list stmt :=
  [ (* loss_fn = nn.MSELoss(size_average=False) *)
    (c <- invoke (MSELoss false) ;; store "loss_fn" (PCriterion c)) ].

(** param.data -= learning_rate * param.grad.data *)
Definition update_param : stmt :=
  p <- load_variable "param" ;;
  lr <- load_float "learning_rate" ;;
  q <- load_variable "param" ;;
  g <- invoke (GradData q) ;;
  u <- invoke (RMul lr g) ;;
  invoke (DataISub p u).

(** The body of [for t in range(500):], one entry per statement. *)
Definition training_body : list stmt :=
  [ (* y_pred = model(x) *)
    (m <- load_module "model" ;;
     x <- load_variable "x" ;;
     y_pred <- invoke (Forward m x) ;;
     store "y_pred" (PVariable y_pred));
    (* loss = loss_fn(y_pred, y) *)
    (c <- load_criterion "loss_fn" ;;
     y_pred <- load_variable "y_pred" ;;
     y <- load_variable "y" ;;
     loss <- invoke (CriterionApply c y_pred y) ;;
     store "loss" (PVariable loss));
    (* print('iteration = %03i, loss = ' % t + str(loss.data[0])) *)
    (t <- load_int "t" ;;
     loss <- load_variable "loss" ;;
     f <- invoke (Item0 loss) ;;
     print ("iteration = " ++ fmt_03i t ++ ", loss = " ++ str_float f));
    (* model.zero_grad() *)
    (m <- load_module "model" ;; invoke (ZeroGrad m));
    (* loss.backward() *)
    (loss <- load_variable "loss" ;; invoke (Backward loss));
    (* for param in model.parameters(): ... *)
    (m <- load_module "model" ;;
     ps <- invoke (Parameters m) ;;
     py_for "param" PVariable ps [ update_param ]) ].

(** Cell 10: the training loop. *)
Definition cell10 : list stmt :=
  [ (* learning_rate = 1e-4 *)
    store "learning_rate" (PFloat (float_of_decimal 1 (-4)));
    (* for t in range(500): ... *)
    py_for "t" PInt (range 500) training_body ].

Definition setup_cells : list (list stmt) :=
  [ cell1; cell2; cell3; cell4; cell5; cell6; cell7; cell8; cell9 ].

Definition notebook : list (list stmt) :=
  setup_cells ++ [ cell10 ].

(** Cells run top to bottom; the first error stops the run. *)
Definition run_cells (cells : list (list stmt)) : stmt :=
  block (concat cells).

(** A fresh kernel: nothing is bound yet. *)
Definition fresh (w0 : world) : state := State [] w0.

Definition run_notebook (w0 : world) : outcome unit :=
  run_cells notebook (fresh w0).

End Notebook.

(** ** Reading traces *)

Section Traces.
Context {Ob : Objects} {R : Runtime}.

(** The exception an event carries, if the call it records raised. *)
Definition raised_by (ev : event) : option exn :=
  match ev with
  | Ev _ (inl e) => Some e
  | _ => None
  end.

(** No call in the trace raised. *)
Definition quiet (tr : list event) : Prop :=
  Forall (fun ev => raised_by ev = None) tr.

(** The last event of the trace is a call that raised [e]; no earlier
    one raised. *)
Fixpoint stops_with (tr : list event) (e : exn) : Prop :=
  match tr with
  | [] => False
  | [ev] => raised_by ev = Some e
  | ev :: rest => raised_by ev = None /\ stops_with rest e
  end.

(** The world the runtime is in after answering the calls of a trace. *)
Fixpoint world_after (w0 : world) (tr : list event) : world :=
  match tr with
  | [] => w0
  | Ev c _ :: rest => world_after (snd (handle c w0)) rest
  | Print _ :: rest => world_after w0 rest
  end.

Definition is_set_default (ev : event) : bool :=
  match ev with
  | Ev (SetDefaultTensorType _) _ => true
  | _ => false
  end.

(** Calls that construct a module. *)
Definition builds_module (ev : event) : bool :=
  match ev with
  | Ev (Linear _ _) _ | Ev ReLU _ | Ev (Sequential _) _ => true
  | _ => false
  end.

Definition is_sequential (ev : event) : bool :=
  match ev with
  | Ev (Sequential _) _ => true
  | _ => false
  end.

Definition builds_criterion (ev : event) : bool :=
  match ev with
  | Ev (MSELoss _) _ => true
  | _ => false
  end.

(** Calls of the training loop, by what they may write in the runtime:
    nothing, gradients, or the data of one variable. *)
Inductive footprint :=
| ReadOnly
| WritesGradients
| WritesData (p : variable).

Definition training_footprint {X} (c : call X) : option footprint :=
  match c with
  | Forward _ _ | CriterionApply _ _ _ | Item0 _ | Parameters _
  | GradData _ | RMul _ _ => Some ReadOnly
  | ZeroGrad _ | Backward _ => Some WritesGradients
  | DataISub p _ => Some (WritesData p)
  | _ => None
  end.

(** An event the training loop can produce. *)
Definition training_event (ev : event) : bool :=
  match ev with
  | Ev c _ => match training_footprint c with Some _ => true | None => false end
  | Print _ => true
  end.

(** The value of the literal [1e-4]. *)
Definition learning_rate : pyfloat := float_of_decimal 1 (-4).

(** What the runtime answered while one parameter was updated, and the
    events of that update. *)
Record update_answer := UpdateAnswer {
  u_param : variable;
  u_grad : tensor;
  u_step : tensor
}.

Definition update_events (a : update_answer) : list event :=
  [ Ev (GradData (u_param a)) (inr (u_grad a));
    Ev (RMul learning_rate (u_grad a)) (inr (u_step a));
    Ev (DataISub (u_param a) (u_step a)) (inr tt) ].

(** What the runtime answered during one iteration, and the events of
    that iteration for model [m], input [x], target [y], criterion [c]
    and loop index [t]. *)
Record step_answer := StepAnswer {
  s_pred : variable;
  s_loss : variable;
  s_item : pyfloat;
  s_updates : list update_answer
}.

Definition loss_line (t : Z) (f : pyfloat) : string :=
  "iteration = " ++ fmt_03i t ++ ", loss = " ++ str_float f.

Definition step_events (m : module) (x y : variable) (c : criterion)
    (t : Z) (a : step_answer) : list event :=
  [ Ev (Forward m x) (inr (s_pred a));
    Ev (CriterionApply c (s_pred a) y) (inr (s_loss a));
    Ev (Item0 (s_loss a)) (inr (s_item a));
    Print (loss_line t (s_item a));
    Ev (ZeroGrad m) (inr tt);
    Ev (Backward (s_loss a)) (inr tt);
    Ev (Parameters m) (inr (map u_param (s_updates a))) ]
  ++ flat_map update_events (s_updates a).

Fixpoint loop_events (m : module) (x y : variable) (c : criterion)
    (ts : list Z) (answers : list step_answer) : list event :=
  match ts, answers with
  | t :: ts', a :: answers' =>
      step_events m x y c t a ++ loop_events m x y c ts' answers'
  | _, _ => []
  end.

(** What the runtime answered during cells 1 to 9 of a run that got
    through them.  [a_moved] is the answer of [model.cuda()], which is
    only called when [a_use_cuda] holds. *)
Record setup_answer := SetupAnswer {
  a_version : string;
  a_available : bool;
  a_a0 : tensor; a_a : tensor; a_str_a : string;
  a_b0 : tensor; a_b : tensor; a_str_b : string;
  a_c : tensor; a_str_c : string;
  a_use_cuda : bool;
  a_d : tensor; a_str_d : string;
  a_x0 : tensor; a_x : variable;
  a_y0 : tensor; a_y : variable;
  a_str_x : string;
  a_l1 : module; a_relu : module; a_l2 : module;
  a_model : module; a_moved : module; a_str_model : string;
  a_loss_fn : criterion
}.

Definition float_type (cuda : bool) : tensor_type :=
  TensorType (if cuda then CUDA else CPU) Float.

Definition setup_events (a : setup_answer) : list event :=
  [ Ev ImportTorch (inr tt);
    Ev TorchVersion (inr (a_version a));
    Print (a_version a);
    Ev CudaIsAvailable (inr (a_available a));
    Print ("CUDA available: " ++ str_bool (a_available a));
    Ev (NewTensor (TensorType CUDA Float) 2) (inr (a_a0 a));
    Ev (Zero_ (a_a0 a)) (inr (a_a a));
    Ev (StrTensor (a_a a)) (inr (a_str_a a));
    Print ("Tensor a = " ++ a_str_a a);
    Ev (Randn [2]) (inr (a_b0 a));
    Ev (Cuda (a_b0 a)) (inr (a_b a));
    Ev (StrTensor (a_b a)) (inr (a_str_b a));
    Print ("Tensor b = " ++ a_str_b a);
    Ev (Add (a_a a) (a_b a)) (inr (a_c a));
    Ev (StrTensor (a_c a)) (inr (a_str_c a));
    Print ("Tensor c = " ++ a_str_c a);
    Ev CudaIsAvailable (inr (a_use_cuda a)) ]
  ++ (if a_use_cuda a
      then [ Ev (SetDefaultTensorType "torch.cuda.FloatTensor") (inr tt) ]
      else [])
  ++ [ Ev (TensorOfRows (float_type (a_use_cuda a)) [[1; 2; 3]; [4; 5; 6]])
          (inr (a_d a));
       Ev (StrTensor (a_d a)) (inr (a_str_d a));
       Print ("Tensor d = " ++ a_str_d a);
       Ev ImportNN (inr tt);
       Ev ImportVariable (inr tt);
       Ev (Randn [64; 1000]) (inr (a_x0 a));
       Ev (MkVariable (a_x0 a) None) (inr (a_x a));
       Ev (Randn [64; 10]) (inr (a_y0 a));
       Ev (MkVariable (a_y0 a) (Some false)) (inr (a_y a));
       Ev (StrVariable (a_x a)) (inr (a_str_x a));
       Print ("x = " ++ a_str_x a);
       Ev (Linear 1000 100) (inr (a_l1 a));
       Ev ReLU (inr (a_relu a));
       Ev (Linear 100 10) (inr (a_l2 a));
       Ev (Sequential [a_l1 a; a_relu a; a_l2 a]) (inr (a_model a)) ]
  ++ (if a_use_cuda a
      then [ Ev (ModuleCuda (a_model a)) (inr (a_moved a)) ]
      else [])
  ++ [ Ev (StrModule (a_model a)) (inr (a_str_model a));
       Print (a_str_model a);
       Ev (MSELoss false) (inr (a_loss_fn a)) ].

(** The namespace cells 1 to 9 leave behind. *)
Definition setup_names (a : setup_answer) : namespace :=
  [ ("loss_fn", PCriterion (a_loss_fn a));
    ("model", PModule (a_model a));
    ("y", PVariable (a_y a));
    ("x", PVariable (a_x a));
    ("dim_out", PInt 10);
    ("H", PInt 100);
    ("dim_in", PInt 1000);
    ("N", PInt 64);
    ("d", PTensor (a_d a));
    ("Tensor", PType (float_type (a_use_cuda a)));
    ("ByteTensor", PType (TensorType (if a_use_cuda a then CUDA else CPU) Byte));
    ("LongTensor", PType (TensorType (if a_use_cuda a then CUDA else CPU) Long));
    ("FloatTensor", PType (float_type (a_use_cuda a)));
    ("use_cuda", PBool (a_use_cuda a));
    ("c", PTensor (a_c a));
    ("b", PTensor (a_b a));
    ("a", PTensor (a_a a)) ].

(** The names the training loop rebinds. *)
Definition loop_names : list string := [ "t"; "y_pred"; "loss"; "param" ].

(** Whether [use_cuda] is bound to [True]. *)
Definition use_cuda_set (names : namespace) : bool :=
  match lookup "use_cuda" names with
  | Some (PBool true) => true
  | _ => false
  end.

(** The default tensor type is set once, to the CUDA float type, in a run
    that bound [use_cuda] to [True], and not at all in any other run. *)
Definition set_default_guarded (o : outcome unit) : Prop :=
  if use_cuda_set (ns (final o))
  then exists r,
    filter is_set_default (trace o) =
    [ Ev (SetDefaultTensorType "torch.cuda.FloatTensor") r ]
  else filter is_set_default (trace o) = [].

(** The trace records what the runtime really answered, call after call,
    starting in world [w0]. *)
Fixpoint genuine (w0 : world) (tr : list event) : Prop :=
  match tr with
  | [] => True
  | Ev c r :: rest => fst (handle c w0) = r /\ genuine (snd (handle c w0)) rest
  | Print _ :: rest => genuine w0 rest
  end.

(** The part of a trace selected and mapped by [f]. *)
Fixpoint collect {A} (f : event -> option A) (tr : list event) : list A :=
  match tr with
  | [] => []
  | ev :: rest =>
      match f ev with
      | Some a => a :: collect f rest
      | None => collect f rest
      end
  end.

(** The lists [model.parameters()] returned. *)
Definition parameter_lists : list event -> list (list variable) :=
  collect (fun ev =>
    match ev with
    | Ev (Parameters _) (inr ps) => Some ps
    | _ => None
    end).

(** The calls made while updating parameters. *)
Definition update_calls : list event -> list event :=
  filter (fun ev =>
    match ev with
    | Ev (GradData _) _ | Ev (RMul _ _) _ | Ev (DataISub _ _) _ => true
    | _ => false
    end).

(** The variables the model was called on, and the loss targets. *)
Definition forward_inputs : list event -> list variable :=
  collect (fun ev =>
    match ev with
    | Ev (Forward _ x) _ => Some x
    | _ => None
    end).

Definition loss_targets : list event -> list variable :=
  collect (fun ev =>
    match ev with
    | Ev (CriterionApply _ _ y) _ => Some y
    | _ => None
    end).

(** The five activities of a training iteration.  Reading the loss value
    and printing it belong to none of them. *)
Inductive phase :=
| ForwardPass
| LossComputation
| GradientZeroing
| BackwardPass
| ParameterUpdate.

Definition phase_of (ev : event) : option phase :=
  match ev with
  | Ev (Forward _ _) _ => Some ForwardPass
  | Ev (CriterionApply _ _ _) _ => Some LossComputation
  | Ev (ZeroGrad _) _ => Some GradientZeroing
  | Ev (Backward _) _ => Some BackwardPass
  | Ev (Parameters _) _ | Ev (GradData _) _ | Ev (RMul _ _) _
  | Ev (DataISub _ _) _ => Some ParameterUpdate
  | _ => None
  end.

Definition phase_eqb (p q : phase) : bool :=
  match p, q with
  | ForwardPass, ForwardPass | LossComputation, LossComputation
  | GradientZeroing, GradientZeroing | BackwardPass, BackwardPass
  | ParameterUpdate, ParameterUpdate => true
  | _, _ => false
  end.

(** The phases a trace goes through: consecutive events of one phase
    count once. *)
Fixpoint phases_from (last : option phase) (tr : list event) : list phase :=
  match tr with
  | [] => []
  | ev :: rest =>
      match phase_of ev, last with
      | None, _ => phases_from last rest
      | Some p, Some q =>
          if phase_eqb p q then phases_from last rest
          else p :: phases_from (Some p) rest
      | Some p, None => p :: phases_from (Some p) rest
      end
  end.

Definition phases (tr : list event) : list phase := phases_from None tr.

Definition iteration_phases : list phase :=
  [ ForwardPass; LossComputation; GradientZeroing; BackwardPass;
    ParameterUpdate ].

(** The phase each statement of the loop body works for. *)
Definition body_phases : list (option phase) :=
  [ Some ForwardPass; Some LossComputation; None; Some GradientZeroing;
    Some BackwardPass; Some ParameterUpdate ].

(** The names the training loop reads are bound as cells 1 to 9 and the
    first statement of cell 10 leave them. *)
Definition ready (m : module) (x y : variable) (c : criterion)
    (names : namespace) : Prop :=
  lookup "model" names = Some (PModule m) /\
  lookup "x" names = Some (PVariable x) /\
  lookup "y" names = Some (PVariable y) /\
  lookup "loss_fn" names = Some (PCriterion c) /\
  lookup "learning_rate" names = Some (PFloat learning_rate).

End Traces.

(** ** Actions built from the primitives

    [built stores emits m]: [m] is made of [ret], [invoke], [print],
    [load], [store], the type error of a load, and sequencing; it stores
    only names in [stores] and leaves only events in [emits]. *)

Section Built.
Context {Ob : Objects} {R : Runtime}.
Variable stores : string -> Prop.
Variable emits : event -> Prop.

Inductive built : forall A : Type, M A -> Prop :=
| built_ret A (a : A) : built (ret a)
| built_type_error A n : built (raise (A := A) (TypeError n))
| built_invoke X (c : call X) : (forall r, emits (Ev c r)) -> built (invoke c)
| built_print line : emits (Print line) -> built (print line)
| built_load n : built (load n)
| built_store n v : stores n -> built (store n v)
| built_bind A B (m : M A) (k : A -> M B) :
    built m -> (forall a, built (k a)) -> built (bind m k).

(** What holds of every run of such an action. *)
Definition well_behaved {A} (m : M A) : Prop :=
  forall s,
    let o := m s in
    Forall emits (trace o) /\
    genuine (w s) (trace o) /\
    w (final o) = world_after (w s) (trace o) /\
    (forall n, ~ stores n -> lookup n (ns (final o)) = lookup n (ns s)) /\
    match result o with
    | inl (Raised e) => stops_with (trace o) e
    | _ => quiet (trace o)
    end.

End Built.

Arguments built {Ob R} stores emits {A} m.
Arguments well_behaved {Ob R} stores emits {A} m.

(** ** The documented reduction of [nn.MSELoss]

    torch documents [nn.MSELoss] as the squared differences of input and
    target, summed over all elements and, unless [size_average] is
    [False], divided by their number.  The arithmetic is the runtime's;
    it is a parameter here. *)

Section Loss.
Variable F : Type.
Variable zero : F.
Variables add sub mul : F -> F -> F.
Variable div_by : F -> nat -> F.

Fixpoint squared_errors (input target : list F) : list F :=
  match input, target with
  | a :: input', b :: target' =>
      mul (sub a b) (sub a b) :: squared_errors input' target'
  | _, _ => []
  end.

Definition sum_squared_error (input target : list F) : F :=
  fold_left add (squared_errors input target) zero.

Definition mse_loss (size_average : bool) (input target : list F) : F :=
  if size_average
  then div_by (sum_squared_error input target) (length input)
  else sum_squared_error input target.

End Loss.

Section Contracts.
Context {Ob : Objects} {R : Runtime}.

Definition anything {A} (_ : A) : Prop := True.

Definition loop_store (n : string) : Prop := In n loop_names.

Definition cell10_store (n : string) : Prop := In n ("learning_rate" :: loop_names).

Definition loop_emit (ev : event) : Prop := training_event ev = true.

(** [nn.MSELoss] as documented, for a runtime whose criteria remember
    their [size_average] flag and whose variables hold [values]. *)
Definition mse_documented (zero : pyfloat) (add sub mul : pyfloat -> pyfloat -> pyfloat)
    (div_by : pyfloat -> nat -> pyfloat)
    (size_average_of : criterion -> bool)
    (values : world -> variable -> list pyfloat) : Prop :=
  (forall sa w0 c w1,
     handle (MSELoss sa) w0 = (inr c, w1) -> size_average_of c = sa) /\
  (forall c input target w0 loss w1 f w2,
     handle (CriterionApply c input target) w0 = (inr loss, w1) ->
     handle (Item0 loss) w1 = (inr f, w2) ->
     f = mse_loss zero add sub mul div_by (size_average_of c)
                  (values w0 input) (values w0 target)).

(** An observation [obs] of the runtime that the calls of the training
    loop leave alone in worlds satisfying [inv]: the calls that write
    nothing or only gradients, and the in-place update of any parameter
    of model [m]. *)
Definition unaffected {D} (obs : world -> D) (inv : world -> Prop)
    (m : module) : Prop :=
  (forall X (c : call X) w0,
     inv w0 ->
     training_footprint c = Some ReadOnly \/
     training_footprint c = Some WritesGradients ->
     inv (snd (handle c w0)) /\ obs (snd (handle c w0)) = obs w0) /\
  (forall w0 ps p u w1,
     inv w0 -> fst (handle (Parameters m) w0) = inr ps -> In p ps ->
     inv w1 ->
     inv (snd (handle (DataISub p u) w1)) /\
     obs (snd (handle (DataISub p u) w1)) = obs w1).

(** World [w1] satisfies [inv] and shows the same [obs] as [w0]. *)
Definition kept {D} (obs : world -> D) (inv : world -> Prop)
    (w0 w1 : world) : Prop :=
  inv w1 /\ obs w1 = obs w0.

(** Updating [p] in place leaves [obs] alone. *)
Definition safe_target {D} (obs : world -> D) (inv : world -> Prop)
    (p : variable) : Prop :=
  forall u w1, inv w1 ->
    inv (snd (handle (DataISub p u) w1)) /\
    obs (snd (handle (DataISub p u) w1)) = obs w1.

End Contracts.

(** ** More readings of traces *)

Section Observations.
Context {Ob : Objects} {R : Runtime}.

(** The strings given to [print], one per call, in order.  A string can
    span several lines of output: [str] of a tensor does. *)
Definition printed : list event -> list string :=
  collect (fun ev => match ev with Print line => Some line | _ => None end).

(** What cells 1 to 9 give to [print], and what the loop does. *)
Definition setup_prints (a : setup_answer) : list string :=
  [ a_version a;
    "CUDA available: " ++ str_bool (a_available a);
    "Tensor a = " ++ a_str_a a;
    "Tensor b = " ++ a_str_b a;
    "Tensor c = " ++ a_str_c a;
    "Tensor d = " ++ a_str_d a;
    "x = " ++ a_str_x a;
    a_str_model a ].

Fixpoint loss_prints (ts : list Z) (answers : list step_answer) : list string :=
  match ts, answers with
  | t :: ts', a :: answers' => loss_line t (s_item a) :: loss_prints ts' answers'
  | _, _ => []
  end.

Definition is_availability_query (ev : event) : bool :=
  match ev with
  | Ev CudaIsAvailable _ => true
  | _ => false
  end.

Definition is_module_cuda (ev : event) : bool :=
  match ev with
  | Ev (ModuleCuda _) _ => true
  | _ => false
  end.

(** The modules the calls of the training loop were made on. *)
Definition modules_used : list event -> list module :=
  collect (fun ev =>
    match ev with
    | Ev (Forward m _) _ | Ev (ZeroGrad m) _ | Ev (Parameters m) _ => Some m
    | _ => None
    end).

(** Tensors made from literal rows. *)
Definition is_tensor_of_rows (ev : event) : bool :=
  match ev with
  | Ev (TensorOfRows _ _) _ => true
  | _ => false
  end.

(** The tensor calls of cell 4 other than [torch.randn]: allocation by
    size, [zero_()], [cuda()] and [+]. *)
Definition gpu_arithmetic (ev : event) : bool :=
  match ev with
  | Ev (NewTensor _ _) _ | Ev (Zero_ _) _ | Ev (Cuda _) _ | Ev (Add _ _) _ => true
  | _ => false
  end.

Definition draws_random (ev : event) : bool :=
  match ev with
  | Ev (Randn _) _ => true
  | _ => false
  end.

Definition wraps_variable (ev : event) : bool :=
  match ev with
  | Ev (MkVariable _ _) _ => true
  | _ => false
  end.

(** [int(s)] for a decimal string. *)
Definition read_int (s : string) : option Z :=
  option_map Z.of_int (NilZero.int_of_string s).

End Observations.

(** ** Statement by statement *)

Section Statements.
Context {Ob : Objects} {R : Runtime}.

(** The statements of a body run one after the other, as [block] runs
    them, keeping the events of each statement apart: one list per
    statement that ran, the last being the one that raised if one did. *)
Fixpoint run_each (body : list stmt) (s : state) : list (list event) :=
  match body with
  | [] => []
  | st :: rest =>
      match st s with
      | Outcome tr s1 (inl _) => [tr]
      | Outcome tr s1 (inr _) => tr :: run_each rest s1
      end
  end.

(** The events of one iteration, statement by statement. *)
Definition step_segments (m : module) (x y : variable) (c : criterion)
    (t : Z) (a : step_answer) : list (list event) :=
  [ [ Ev (Forward m x) (inr (s_pred a)) ];
    [ Ev (CriterionApply c (s_pred a) y) (inr (s_loss a)) ];
    [ Ev (Item0 (s_loss a)) (inr (s_item a));
      Print (loss_line t (s_item a)) ];
    [ Ev (ZeroGrad m) (inr tt) ];
    [ Ev (Backward (s_loss a)) (inr tt) ];
    Ev (Parameters m) (inr (map u_param (s_updates a)))
    :: flat_map update_events (s_updates a) ].

(** Calls that set the default tensor type. *)
Definition sets_default_type {X} (c : call X) : bool :=
  match c with
  | SetDefaultTensorType _ => true
  | _ => false
  end.

(** [torch.set_default_tensor_type] and [torch.randn] as torch documents
    them, for a runtime that shows its default tensor type as
    [default_of] and the type of a tensor as [type_of]: setting the
    default to ['torch.cuda.FloatTensor'] makes it the CUDA float type,
    [torch.randn] makes a tensor of the default type, and no other call
    changes the default. *)
Definition default_type_documented (default_of : world -> tensor_type)
    (type_of : tensor -> tensor_type) : Prop :=
  (forall w0,
     fst (handle (SetDefaultTensorType "torch.cuda.FloatTensor") w0) = inr tt ->
     default_of (snd (handle (SetDefaultTensorType "torch.cuda.FloatTensor") w0)) =
     TensorType CUDA Float) /\
  (forall shape w0 t,
     fst (handle (Randn shape) w0) = inr t -> type_of t = default_of w0) /\
  (forall X (c : call X) w0,
     sets_default_type c = false ->
     default_of (snd (handle c w0)) = default_of w0).

(** The calls that set the default tensor type or draw from
    [torch.randn], which allocates by the default. *)
Definition sets_or_draws (ev : event) : bool :=
  is_set_default ev || draws_random ev.

End Statements.

(** ** A reference runtime

    [Ref] is a small deterministic stand-in for torch, used to exhibit
    concrete runs.  A tensor is a shape with one value repeated over it
    (or explicit rows), floats are integers, gradients are always zero.
    CUDA calls raise on a machine without a GPU. *)

Module Ref.

Inductive payload :=
| Uniform (shape : list Z) (fill : Z)
| Rows (rows : list (list Z)).

Record rtensor := RTensor { t_data : payload; t_type : tensor_type }.

(** A variable is an index into the heap of slots. *)
Record slot := Slot {
  v_data : payload;
  v_grad : option payload;
  v_requires_grad : bool;
  v_type : tensor_type
}.

#[local] Unset Elimination Schemes.
Inductive rmodule :=
| RLinear (weight bias : nat) (n_in n_out : Z)
| RReLU
| RSequential (layers : list rmodule).
#[local] Set Elimination Schemes.

Record machine := Machine {
  installed : bool;
  gpu : bool;
  default_type : tensor_type;
  seed : Z;
  heap : list slot
}.

Definition str_int (z : Z) : string := NilZero.string_of_int (Z.to_int z).

Definition objects : Objects := {|
  tensor := rtensor;
  variable := nat;
  module := rmodule;
  criterion := bool;
  pyfloat := Z;
  exn := string;
  float_of_decimal := fun m e => if 0 <=? e then m * 10 ^ e else m / 10 ^ (- e);
  str_float := str_int
|}.

#[local] Existing Instance objects.

Definition numel (shape : list Z) : Z := fold_right Z.mul 1 shape.

Definition elements (p : payload) : list Z :=
  match p with
  | Uniform shape fill => repeat fill (Z.to_nat (numel shape))
  | Rows rows => concat rows
  end.

Definition first_element (p : payload) : option Z :=
  match p with
  | Uniform shape fill => if 0 <? numel shape then Some fill else None
  | Rows rows => hd_error (concat rows)
  end.

Definition shape_of (p : payload) : list Z :=
  match p with
  | Uniform shape _ => shape
  | Rows rows => [Z.of_nat (length rows); Z.of_nat (length (hd [] rows))]
  end.

Definition map_payload (f : Z -> Z) (p : payload) : payload :=
  match p with
  | Uniform shape fill => Uniform shape (f fill)
  | Rows rows => Rows (map (map f) rows)
  end.

Fixpoint zip_with (f : Z -> Z -> Z) (a b : list Z) : list Z :=
  match a, b with
  | x :: a', y :: b' => f x y :: zip_with f a' b'
  | _, _ => []
  end.

Fixpoint zip_rows (f : Z -> Z -> Z) (a b : list (list Z)) : list (list Z) :=
  match a, b with
  | x :: a', y :: b' => zip_with f x y :: zip_rows f a' b'
  | _, _ => []
  end.

Definition same_shape (a b : list Z) : bool :=
  if list_eq_dec Z.eq_dec a b then true else false.

(** Elementwise [f] on two tensors of one shape. *)
Definition zip_payload (f : Z -> Z -> Z) (p q : payload) : option payload :=
  match p, q with
  | Uniform s1 a, Uniform s2 b =>
      if same_shape s1 s2 then Some (Uniform s1 (f a b)) else None
  | Rows r1, Rows r2 =>
      if same_shape (shape_of p) (shape_of q)
      then Some (Rows (zip_rows f r1 r2)) else None
  | _, _ => None
  end.

Definition type_name (ty : tensor_type) : string :=
  (match tt_device ty with CUDA => "torch.cuda." | CPU => "torch." end)
  ++ (match tt_dtype ty with
      | Float => "FloatTensor" | Long => "LongTensor" | Byte => "ByteTensor"
      end).

Fixpoint str_shape (shape : list Z) : string :=
  match shape with
  | [] => ""
  | [n] => str_int n
  | n :: rest => str_int n ++ "x" ++ str_shape rest
  end.

Definition describe (p : payload) (ty : tensor_type) : string :=
  "[" ++ type_name ty ++ " of size " ++ str_shape (shape_of p) ++ "]".

Definition with_heap (m : machine) (h : list slot) : machine :=
  Machine (installed m) (gpu m) (default_type m) (seed m) h.

Definition with_default (m : machine) (ty : tensor_type) : machine :=
  Machine (installed m) (gpu m) ty (seed m) (heap m).

(** The next pseudo-random value, between -2 and 2. *)
Definition draw (m : machine) : Z * machine :=
  ((seed m * 7 + 3) mod 5 - 2,
   Machine (installed m) (gpu m) (default_type m) (seed m + 1) (heap m)).

Definition alloc (s : slot) (m : machine) : nat * machine :=
  (length (heap m), with_heap m (heap m ++ [s])).

Fixpoint update_slot (h : list slot) (i : nat) (f : slot -> slot) : list slot :=
  match h, i with
  | [], _ => []
  | s :: h', O => f s :: h'
  | s :: h', S i' => s :: update_slot h' i' f
  end.

Definition usable (m : machine) (ty : tensor_type) : bool :=
  match tt_device ty with
  | CUDA => gpu m
  | CPU => true
  end.

Definition no_cuda : string := "Torch not compiled with CUDA enabled".
Definition no_torch : string := "No module named torch".
Definition bad_size : string := "inconsistent tensor size".
Definition bad_variable : string := "no such variable".

Fixpoint parameters_of (m : rmodule) : list nat :=
  match m with
  | RLinear weight bias _ _ => [weight; bias]
  | RReLU => []
  | RSequential layers =>
      (fix go (ls : list rmodule) : list nat :=
         match ls with
         | [] => []
         | l :: ls' => (parameters_of l ++ go ls')%list
         end) layers
  end.

(** A module on a uniform batch: the exact value of a linear layer when
    input, weight and bias each repeat one value. *)
Fixpoint apply_module (h : list slot) (m : rmodule) (input : payload)
    : option payload :=
  match m with
  | RLinear weight bias n_in n_out =>
      match nth_error h weight, nth_error h bias, input with
      | Some ws, Some bs, Uniform [n; k] fx =>
          match v_data ws, v_data bs with
          | Uniform _ fw, Uniform _ fb =>
              if k =? n_in
              then Some (Uniform [n; n_out] (n_in * fx * fw + fb))
              else None
          | _, _ => None
          end
      | _, _, _ => None
      end
  | RReLU => Some (map_payload (Z.max 0) input)
  | RSequential layers =>
      (fix go (ls : list rmodule) (p : payload) : option payload :=
         match ls with
         | [] => Some p
         | l :: ls' =>
             match apply_module h l p with
             | Some out => go ls' out
             | None => None
             end
         end) layers input
  end.

Fixpoint str_module (m : rmodule) : string :=
  match m with
  | RLinear _ _ n_in n_out =>
      "Linear (" ++ str_int n_in ++ " -> " ++ str_int n_out ++ ")"
  | RReLU => "ReLU ()"
  | RSequential layers =>
      "Sequential ("
      ++ (fix go (ls : list rmodule) : string :=
            match ls with
            | [] => ""
            | l :: ls' => " " ++ str_module l ++ go ls'
            end) layers
      ++ " )"
  end.

Definition zero_grad_slot (s : slot) : slot :=
  Slot (v_data s) (option_map (map_payload (fun _ => 0)) (v_grad s))
       (v_requires_grad s) (v_type s).

(** Ref does not differentiate: a backward pass leaves every gradient
    it has and reports zero for the others. *)
Definition backward_slot (s : slot) : slot :=
  if v_requires_grad s
  then Slot (v_data s)
            (Some (match v_grad s with
                   | Some g => g
                   | None => map_payload (fun _ => 0) (v_data s)
                   end))
            true (v_type s)
  else s.

Definition move_slot (s : slot) : slot :=
  Slot (v_data s) (v_grad s) (v_requires_grad s)
       (TensorType CUDA (tt_dtype (v_type s))).

Definition handle_ref (X : Type) (c : call X) (m : machine)
    : (string + X) * machine :=
  match c in call X return (string + X) * machine with
  | ImportTorch | ImportNN | ImportVariable =>
      if installed m then (inr tt, m) else (inl no_torch, m)
  | TorchVersion => (inr "0.3.0b0+af3964a", m)
  | CudaIsAvailable => (inr (gpu m), m)
  | NewTensor ty n =>
      if usable m ty then (inr (RTensor (Uniform [n] 0) ty), m)
      else (inl no_cuda, m)
  | TensorOfRows ty rows =>
      if usable m ty then (inr (RTensor (Rows rows) ty), m)
      else (inl no_cuda, m)
  | Zero_ t => (inr (RTensor (map_payload (fun _ => 0) (t_data t)) (t_type t)), m)
  | Randn shape =>
      if usable m (default_type m)
      then let (v, m') := draw m in
           (inr (RTensor (Uniform shape v) (default_type m)), m')
      else (inl no_cuda, m)
  | Cuda t =>
      if gpu m
      then (inr (RTensor (t_data t) (TensorType CUDA (tt_dtype (t_type t)))), m)
      else (inl no_cuda, m)
  | Add a b =>
      match zip_payload Z.add (t_data a) (t_data b) with
      | Some p => (inr (RTensor p (t_type a)), m)
      | None => (inl bad_size, m)
      end
  | StrTensor t => (inr (describe (t_data t) (t_type t)), m)
  | SetDefaultTensorType name =>
      if String.eqb name "torch.cuda.FloatTensor"
      then if gpu m then (inr tt, with_default m (TensorType CUDA Float))
           else (inl no_cuda, m)
      else if String.eqb name "torch.FloatTensor"
      then (inr tt, with_default m (TensorType CPU Float))
      else (inl "invalid type", m)
  | MkVariable t requires_grad =>
      let (v, m') :=
        alloc (Slot (t_data t) None
                    (match requires_grad with Some b => b | None => false end)
                    (t_type t)) m in
      (inr v, m')
  | StrVariable v =>
      match nth_error (heap m) v with
      | Some s => (inr ("Variable containing " ++ describe (v_data s) (v_type s)), m)
      | None => (inl bad_variable, m)
      end
  | Linear n_in n_out =>
      let (fw, m1) := draw m in
      let (wi, m2) :=
        alloc (Slot (Uniform [n_out; n_in] fw) None true (default_type m)) m1 in
      let (fb, m3) := draw m2 in
      let (bi, m4) :=
        alloc (Slot (Uniform [n_out] fb) None true (default_type m)) m3 in
      (inr (RLinear wi bi n_in n_out), m4)
  | ReLU => (inr RReLU, m)
  | Sequential layers => (inr (RSequential layers), m)
  | ModuleCuda md =>
      if gpu m
      then (inr md,
            with_heap m
              (fold_left (fun h i => update_slot h i move_slot)
                         (parameters_of md) (heap m)))
      else (inl no_cuda, m)
  | StrModule md => (inr (str_module md), m)
  | MSELoss size_average => (inr size_average, m)
  | Forward md x =>
      match nth_error (heap m) x with
      | Some s =>
          match apply_module (heap m) md (v_data s) with
          | Some out =>
              let (v, m') := alloc (Slot out None true (v_type s)) m in
              (inr v, m')
          | None => (inl bad_size, m)
          end
      | None => (inl bad_variable, m)
      end
  | CriterionApply size_average input target =>
      match nth_error (heap m) input, nth_error (heap m) target with
      | Some si, Some st =>
          let loss :=
            mse_loss 0 Z.add Z.sub Z.mul (fun s n => s / Z.of_nat n)
                     size_average (elements (v_data si)) (elements (v_data st)) in
          let (v, m') := alloc (Slot (Uniform [1] loss) None true (v_type si)) m in
          (inr v, m')
      | _, _ => (inl bad_variable, m)
      end
  | Item0 v =>
      match nth_error (heap m) v with
      | Some s =>
          match first_element (v_data s) with
          | Some f => (inr f, m)
          | None => (inl "index out of range", m)
          end
      | None => (inl bad_variable, m)
      end
  | ZeroGrad md =>
      (inr tt,
       with_heap m
         (fold_left (fun h i => update_slot h i zero_grad_slot)
                    (parameters_of md) (heap m)))
  | Backward v =>
      match nth_error (heap m) v with
      | Some _ => (inr tt, with_heap m (map backward_slot (heap m)))
      | None => (inl bad_variable, m)
      end
  | Parameters md => (inr (parameters_of md), m)
  | GradData p =>
      match nth_error (heap m) p with
      | Some s =>
          match v_grad s with
          | Some g => (inr (RTensor g (v_type s)), m)
          | None => (inl "'NoneType' object has no attribute 'data'", m)
          end
      | None => (inl bad_variable, m)
      end
  | RMul s t => (inr (RTensor (map_payload (Z.mul s) (t_data t)) (t_type t)), m)
  | DataISub p u =>
      match nth_error (heap m) p with
      | Some s =>
          match zip_payload Z.sub (v_data s) (t_data u) with
          | Some d =>
              (inr tt,
               with_heap m
                 (update_slot (heap m) p
                    (fun s => Slot d (v_grad s) (v_requires_grad s) (v_type s))))
          | None => (inl bad_size, m)
          end
      | None => (inl bad_variable, m)
      end
  end.

Definition runtime : Runtime := {| world := machine; handle := handle_ref |}.

#[local] Existing Instance runtime.

(** A Jetson with torch and CUDA, a machine with torch but no GPU. *)
Definition jetson : machine := Machine true true (TensorType CPU Float) 1 [].
Definition cpu_only : machine := Machine true false (TensorType CPU Float) 1 [].

(** The elements of a variable of the heap. *)
Definition values (m : machine) (v : nat) : list Z :=
  match nth_error (heap m) v with
  | Some s => elements (v_data s)
  | None => []
  end.

(** The data of the first two variables of the heap; on [jetson] these
    are [x] and [y]. *)
Definition inputs (m : machine) : option payload * option payload :=
  (option_map v_data (nth_error (heap m) 0),
   option_map v_data (nth_error (heap m) 1)).

Definition has_inputs (m : machine) : Prop := (2 <= length (heap m))%nat.

(** The model the notebook builds on [jetson], and the state in which
    its training loop starts there. *)
Definition model : rmodule :=
  RSequential [RLinear 2 3 1000 100; RReLU; RLinear 4 5 100 10].

Definition loop_start : state :=
  let s := final (run_cells setup_cells (fresh jetson)) in
  State (bind_name "learning_rate" (PFloat learning_rate) (ns s)) (w s).

(** The state in which the body of its first iteration starts. *)
Definition first_iteration : state :=
  State (bind_name "t" (PInt 0) (ns loop_start)) (w loop_start).

End Ref.

(** ** A runtime that gives out

    [Limited] answers as [Ref] does while a budget of calls lasts and
    raises from then on, as a device that runs out of memory would.  It
    exhibits runs that stop partway. *)

Module Limited.
Import Ref.
#[local] Existing Instance objects.

Definition exhausted : string := "out of memory".

Definition handle_limited (X : Type) (c : call X) (st : nat * machine)
    : (string + X) * (nat * machine) :=
  match fst st with
  | O => (inl exhausted, st)
  | S budget =>
      let (r, m') := handle_ref c (snd st) in (r, (budget, m'))
  end.

Definition runtime : Runtime :=
  {| world := nat * machine; handle := handle_limited |}.

End Limited.

(** * Proofs *)

Local Open Scope list_scope.

(** ** Traces *)

Section TraceFacts.
Context {Ob : Objects} {R : Runtime}.

Lemma quiet_app tr1 tr2 : quiet tr1 -> quiet tr2 -> quiet (tr1 ++ tr2).
Proof. unfold quiet. intros. apply Forall_app. auto. Qed.

Lemma stops_with_app tr1 tr2 e :
  quiet tr1 -> stops_with tr2 e -> stops_with (tr1 ++ tr2) e.
Proof.
  induction 1 as [|ev tr1 Hev Htr IH]; intros H2; [exact H2|].
  specialize (IH H2). change ((ev :: tr1) ++ tr2) with (ev :: (tr1 ++ tr2)).
  destruct (tr1 ++ tr2) eqn:E.
  - destruct IH.
  - cbn. split; assumption.
Qed.

Lemma genuine_app w0 tr1 tr2 :
  genuine w0 (tr1 ++ tr2) <-> genuine w0 tr1 /\ genuine (world_after w0 tr1) tr2.
Proof.
  revert w0. induction tr1 as [|ev tr1 IH]; intros w0; cbn.
  - tauto.
  - destruct ev as [X c r|l]; cbn; rewrite IH; tauto.
Qed.

Lemma world_after_app w0 tr1 tr2 :
  world_after w0 (tr1 ++ tr2) = world_after (world_after w0 tr1) tr2.
Proof.
  revert w0. induction tr1 as [|ev tr1 IH]; intros w0; cbn; [reflexivity|].
  destruct ev; apply IH.
Qed.

(** Every answer in a genuine trace is one the runtime gave. *)
Lemma genuine_answer w0 tr X (c : call X) r :
  genuine w0 tr -> In (Ev c r) tr -> exists w1, fst (handle c w1) = r.
Proof.
  revert w0. induction tr as [|ev tr IH]; intros w0 Hg Hin; [destruct Hin|].
  destruct Hin as [->|Hin].
  - exists w0. apply Hg.
  - destruct ev; cbn in Hg; [destruct Hg as [_ Hg]|]; eapply IH; eauto.
Qed.

Lemma collect_app A (f : event -> option A) tr1 tr2 :
  collect f (tr1 ++ tr2) = collect f tr1 ++ collect f tr2.
Proof.
  induction tr1 as [|ev tr1 IH]; cbn; [reflexivity|].
  destruct (f ev); cbn; rewrite IH; reflexivity.
Qed.

Lemma collect_none A (f : event -> option A) tr :
  Forall (fun ev => f ev = None) tr -> collect f tr = [].
Proof.
  induction 1 as [|ev tr Hev _ IH]; cbn; [reflexivity|]. rewrite Hev. exact IH.
Qed.

Lemma filter_none (f : event -> bool) tr :
  Forall (fun ev => f ev = false) tr -> filter f tr = [].
Proof.
  induction 1 as [|ev tr Hev _ IH]; cbn; [reflexivity|]. rewrite Hev. exact IH.
Qed.

End TraceFacts.

(** ** Built actions are well behaved *)

Section BuiltFacts.
Context {Ob : Objects} {R : Runtime}.

Lemma built_well_behaved stores emits A (m : M A) :
  built stores emits m -> well_behaved stores emits m.
Proof.
  induction 1 as [A a|A n0|X c Hc|line Hl|n|n v Hn|A B m k Hm IHm Hk IHk];
    intros s; cbn.
  - repeat split; auto; constructor.
  - repeat split; auto; constructor.
  - unfold invoke. destruct (handle c (w s)) as [[e|x] w'] eqn:E; cbn;
      rewrite E; cbn; repeat split; auto.
    repeat constructor.
  - repeat split; auto. all: repeat constructor.
  - unfold load. destruct (lookup n (ns s)); cbn; repeat split; auto; constructor.
  - repeat split; auto; try constructor.
    intros n' Hn'. destruct (String.eqb_spec n' n) as [->|]; [contradiction|reflexivity].
  - unfold bind. specialize (IHm s). cbn in IHm.
    destruct (m s) as [tr s1 [e|a]]; cbn in *; [exact IHm|].
    specialize (IHk a s1). cbn in IHk.
    destruct (k a s1) as [tr' s2 r]; cbn in *.
    destruct IHm as (E1 & G1 & W1 & N1 & Q1), IHk as (E2 & G2 & W2 & N2 & Q2).
    repeat split.
    + apply Forall_app; auto.
    + apply genuine_app. rewrite <- W1. auto.
    + rewrite world_after_app, <- W1. exact W2.
    + intros n Hn. rewrite N2, N1; auto.
    + destruct r as [[e| |]|]; try (apply quiet_app; assumption).
      apply stops_with_app; assumption.
Qed.

Variable stores : string -> Prop.
Variable emits : event -> Prop.

Lemma built_block body :
  Forall (built stores emits) body -> built stores emits (block body).
Proof.
  induction 1; cbn [block]; constructor; auto.
Qed.

Lemma built_for_each A (items : list A) body :
  (forall a, built stores emits (body a)) ->
  built stores emits (for_each items body).
Proof.
  intros Hb. induction items; cbn [for_each]; constructor; auto.
Qed.

Lemma built_py_for A target (inj : A -> pyval) items body :
  stores target -> Forall (built stores emits) body ->
  built stores emits (py_for target inj items body).
Proof.
  intros Ht Hb. apply built_for_each. intros a.
  constructor; [constructor; exact Ht|]. intros _. apply built_block, Hb.
Qed.

Lemma built_load_as A n (k : pyval -> M A) :
  (forall v, built stores emits (k v)) -> built stores emits (bind (load n) k).
Proof. intros H. constructor; [constructor|exact H]. Qed.

Lemma built_py_if n body :
  Forall (built stores emits) body -> built stores emits (py_if n body).
Proof.
  intros Hb. unfold py_if, load_bool.
  constructor.
  - apply built_load_as. intros v; destruct v; constructor.
  - intros [|]; [apply built_block, Hb|constructor].
Qed.


End BuiltFacts.

(** Decomposes a goal [built _ _ m] along the structure of [m]. *)
Ltac build :=
  repeat first
    [ apply built_ret | apply built_type_error | apply built_load
    | apply built_print | apply built_invoke | apply built_store
    | apply built_py_for | apply built_py_if | apply built_block
    | apply built_bind | apply Forall_cons | apply Forall_nil
    | intros ?
    | match goal with
      | |- built _ _ (match ?v with _ => _ end) => destruct v
      end ].

Ltac unfold_loads :=
  cbv [print_tensor choose_type update_param load_bool load_int load_float
       load_type load_tensor load_variable load_module load_criterion].

Section NotebookBuilt.
Context {Ob : Objects} {R : Runtime}.

(** The notebook is sequencing of the primitives and nothing else. *)
Lemma built_notebook : built anything anything (run_cells notebook).
Proof.
  unfold run_cells. apply built_block.
  cbv [notebook setup_cells concat app cell1 cell2 cell3 cell4 cell5 cell6
       cell7 cell8 cell9 cell10 training_body].
  unfold_loads. build; exact I.
Qed.

(** The loop body stores only the loop's names and emits only training
    events. *)
Lemma built_body : Forall (built loop_store loop_emit) training_body.
Proof.
  unfold training_body. unfold_loads.
  build; try reflexivity; cbv; tauto.
Qed.

Lemma built_training ts :
  built loop_store loop_emit (py_for "t" PInt ts training_body).
Proof.
  apply built_py_for; [cbv; tauto|apply built_body].
Qed.

Lemma built_update_loop ps :
  built loop_store loop_emit (py_for "param" PVariable ps [update_param]).
Proof.
  unfold_loads. build; try reflexivity; cbv; tauto.
Qed.

Lemma built_weaken (s1 s2 : string -> Prop) (e1 e2 : event -> Prop) A (m : M A) :
  (forall n, s1 n -> s2 n) -> (forall ev, e1 ev -> e2 ev) ->
  built s1 e1 m -> built s2 e2 m.
Proof.
  intros Hs He. induction 1; constructor; auto.
Qed.

Lemma built_cell10 : built cell10_store loop_emit (block cell10).
Proof.
  unfold cell10. apply built_block.
  apply Forall_cons; [|apply Forall_cons; [|apply Forall_nil]].
  - apply built_store. cbv; tauto.
  - apply built_weaken with (s1 := loop_store) (e1 := loop_emit);
      [|auto|apply built_training].
    intros n Hn. right. exact Hn.
Qed.

End NotebookBuilt.

(** ** Running the cells *)

(** Symbolic execution: [crunch] evaluates up to the next call of the
    runtime, [call_step] splits on its answer.  [sym], [look] and [call]
    do the same under a namespace known only through lookups. *)
Ltac call_step :=
  match goal with
  | |- context [handle ?c ?w] =>
      let e := fresh "e" in let x := fresh "x" in let w' := fresh "w" in
      destruct (handle c w) as [[e|x] w']
  | |- context [if ?b then _ else _] => is_var b; destruct b
  end.

Ltac crunch := cbv beta iota delta
  [bind invoke print load store ret raise load_bool load_int load_float load_type
   load_tensor load_variable load_module load_criterion block for_each py_if
   choose_type print_tensor lookup String.eqb Ascii.eqb Bool.eqb bind_name
   ns w fresh trace final result app run_cells setup_cells concat
   cell1 cell2 cell3 cell4 cell5 cell6 cell7 cell8 cell9].

Ltac sym := cbv beta iota delta
  [bind invoke print load store ret raise load_bool load_int load_float
   load_type load_tensor load_variable load_module load_criterion block
   bind_name ns w trace final result];
  cbn [lookup String.eqb Ascii.eqb Bool.eqb app].

Ltac look :=
  sym; repeat match goal with
       | H : lookup _ _ = Some _ |- _ => rewrite H; sym
       end.

Ltac call :=
  match goal with
  | |- context [handle ?c ?w] =>
      let e := fresh "e" in let x := fresh "x" in let w' := fresh "w" in
      destruct (handle c w) as [[e|x] w']; look; [solve [eauto]|]
  end.

Section Runs.
Context {Ob : Objects} {R : Runtime}.

Lemma bind_run A B (m : M A) (k : A -> M B) s :
  bind m k s =
  match m s with
  | Outcome tr s1 (inl e) => Outcome tr s1 (inl e)
  | Outcome tr s1 (inr a) =>
      match k a s1 with
      | Outcome tr' s2 r => Outcome (tr ++ tr') s2 r
      end
  end.
Proof. reflexivity. Qed.

Lemma block_app body1 body2 s :
  block (body1 ++ body2) s = (block body1 ;; block body2) s.
Proof.
  revert s. induction body1 as [|st body1 IH]; intros s.
  - cbn. destruct (block body2 s) as [tr s' r]. reflexivity.
  - cbn [app block]. unfold bind.
    destruct (st s) as [tr s1 [e|[]]]; [reflexivity|].
    rewrite IH. unfold bind.
    destruct (block body1 s1) as [tr1 s2 [e|[]]]; [reflexivity|].
    destruct (block body2 s2) as [tr2 s3 r]. rewrite app_assoc. reflexivity.
Qed.

Lemma py_for_cons A target (inj : A -> pyval) a items body s :
  py_for target inj (a :: items) body s =
  ((store target (inj a) ;; block body) ;;
   py_for target inj items body) s.
Proof. reflexivity. Qed.

(** Cells 1 to 9, call by call: every way they can stop, and the one way
    they get through. *)
Lemma setup_run w0 :
  let o := run_cells setup_cells (fresh w0) in
  set_default_guarded o /\
  match result o with
  | inr _ => exists a, trace o = setup_events a /\ ns (final o) = setup_names a
  | inl err => exists e, err = Raised e
  end.
Proof.
  intros o; subst o. unfold set_default_guarded.
  crunch.
  repeat (call_step; crunch;
    lazymatch goal with
    | |- _ /\ (exists e, Raised _ = Raised e) => split; [cbv; eauto | eauto]
    | _ => idtac
    end).
  all: repeat match goal with u : unit |- _ => destruct u end.
  all: split; [cbv; eauto|].
  1: unshelve
       (eexists (SetupAnswer _ _ _ _ _ _ _ _ _ _ true _ _ _ _ _ _ _ _ _ _ _ _ _ _));
     [ .. | cbn -[String.append str_bool]; split; reflexivity ].
  unshelve
    (eexists (SetupAnswer _ _ _ _ _ _ _ _ _ _ false _ _ _ _ _ _ _ _ _ _ _ _ _ _));
    [ .. | cbn -[String.append str_bool]; split; reflexivity ]; eassumption.
Qed.

Lemma ready_frame m x y c names names' :
  ready m x y c names ->
  (forall n, ~ loop_store n -> lookup n names' = lookup n names) ->
  ready m x y c names'.
Proof.
  unfold ready, loop_store, loop_names. intros (Hm & Hx & Hy & Hc & Hl) Hf.
  rewrite !Hf; [tauto|..];
    intros H; cbn in H; repeat destruct H as [H|H]; discriminate || contradiction.
Qed.

(** The loop over [model.parameters()]. *)
Lemma update_loop ps : forall s,
  lookup "learning_rate" (ns s) = Some (PFloat learning_rate) ->
  let o := py_for "param" PVariable ps [update_param] s in
  match result o with
  | inr _ => exists us, map u_param us = ps /\ trace o = flat_map update_events us
  | inl err => exists e, err = Raised e
  end.
Proof.
  induction ps as [|p ps IH]; intros [names w0] Hlr; cbn in Hlr.
  - exists []. split; reflexivity.
  - cbn zeta. rewrite py_for_cons, bind_run.
    set (rest := py_for "param" PVariable ps [update_param]) in *.
    unfold update_param. look.
    do 3 call.
    match goal with
    | |- context [rest ?s] => specialize (IH s Hlr); destruct (rest s) as [tr s2 [err|[]]]
    end; cbn in *; [exact IH|].
    destruct IH as (us & Hus & Htr).
    match goal with
    | |- context [Ev (GradData p) (inr ?g) :: Ev (RMul _ _) (inr ?u) :: _] =>
        exists (UpdateAnswer p g u :: us)
    end.
    repeat match goal with u : unit |- _ => destruct u end.
    cbn. rewrite Hus, Htr. split; reflexivity.
Qed.

(** One iteration, from a namespace in which the loop's inputs are bound. *)
Lemma training_step m x y c t s :
  ready m x y c (ns s) ->
  let o := (store "t" (PInt t) ;; block training_body) s in
  ready m x y c (ns (final o)) /\
  match result o with
  | inr _ => exists a, trace o = step_events m x y c t a
  | inl err => exists e, err = Raised e
  end.
Proof.
  destruct s as [names w0]. intros Hr. cbn zeta.
  split.
  { apply ready_frame with (names := names); [exact Hr|].
    assert (Hb : well_behaved loop_store loop_emit
                   (store "t" (PInt t) ;; block training_body)).
    { apply built_well_behaved. constructor.
      - constructor. cbv; tauto.
      - intros _. apply built_block, built_body. }
    intros n Hn. apply (Hb (State names w0)). exact Hn. }
  pose proof Hr as (Hm & Hx & Hy & Hc & Hl). cbn [ns] in *.
  unfold training_body. look.
  do 6 call.
  match goal with
  | |- context [py_for "param" PVariable ?ps ?body ?s] =>
      pose proof (@update_loop ps s Hl) as Hu; cbn zeta in Hu;
      destruct (py_for "param" PVariable ps body s) as [tr s2 [err|[]]]
  end; look; [exact Hu|].
  destruct Hu as (us & Hus & Htr). cbn [trace] in *.
  repeat match goal with u : unit |- _ => destruct u end.
  match goal with
  | |- context [Ev (Forward _ _) (inr ?yp)
                :: Ev (CriterionApply _ _ _) (inr ?l)
                :: Ev (Item0 _) (inr ?f) :: _] =>
      exists (StepAnswer yp l f us)
  end.
  unfold step_events, loss_line. cbn [s_pred s_loss s_item s_updates app].
  rewrite Hus, Htr, app_nil_r. reflexivity.
Qed.

(** The loop over [range(...)]. *)
Lemma training_loop m x y c ts : forall s,
  ready m x y c (ns s) ->
  let o := py_for "t" PInt ts training_body s in
  match result o with
  | inr _ => exists answers,
      length answers = length ts /\ trace o = loop_events m x y c ts answers
  | inl err => exists e, err = Raised e
  end.
Proof.
  induction ts as [|t ts IH]; intros s Hr; cbn zeta.
  - exists []. split; reflexivity.
  - rewrite py_for_cons, bind_run.
    destruct (@training_step m x y c t s Hr) as [Hr1 H1]. cbn zeta in H1.
    destruct ((store "t" (PInt t) ;; block training_body) s)
      as [tr1 s1 [err|[]]]; cbn [result trace final] in *; [exact H1|].
    specialize (IH s1 Hr1). cbn zeta in IH.
    destruct (py_for "t" PInt ts training_body s1) as [tr2 s2 [err|[]]];
      cbn [result trace final] in *; [exact IH|].
    destruct H1 as (a & Ha), IH as (answers & Hlen & Htr).
    exists (a :: answers). cbn [length loop_events]. split; congruence.
Qed.

End Runs.

(** ** The whole run *)

Section Whole.
Context {Ob : Objects} {R : Runtime}.

Lemma range_length n : length (range n) = n.
Proof. unfold range. rewrite length_map, length_seq. reflexivity. Qed.

Lemma cell10_run s :
  block cell10 s =
  py_for "t" PInt (range 500) training_body
    (State (bind_name "learning_rate" (PFloat learning_rate) (ns s)) (w s)).
Proof.
  unfold cell10. cbn [block]. rewrite bind_run. cbn [store].
  rewrite bind_run.
  destruct (py_for _ _ _ _ _) as [tr s2 [e|[]]]; cbn; [reflexivity|].
  rewrite app_nil_r. reflexivity.
Qed.

(** The run is the run of cells 1 to 9 followed, if they got through,
    by the run of cell 10. *)
Lemma notebook_run w0 :
  let o9 := run_cells setup_cells (fresh w0) in
  let o10 := block cell10 (final o9) in
  run_notebook w0 =
  match result o9 with
  | inl err => Outcome (trace o9) (final o9) (inl err)
  | inr _ => Outcome (trace o9 ++ trace o10) (final o10) (result o10)
  end.
Proof.
  cbn zeta. unfold run_notebook, run_cells, notebook.
  rewrite concat_app. cbn [concat]. rewrite app_nil_r, block_app, bind_run.
  destruct (block (concat setup_cells) (fresh w0)) as [tr s1 [e|[]]];
    cbn [result trace final]; [reflexivity|].
  destruct (block cell10 s1); reflexivity.
Qed.

Lemma ready_after_setup a :
  ready (a_model a) (a_x a) (a_y a) (a_loss_fn a)
    (bind_name "learning_rate" (PFloat learning_rate) (setup_names a)).
Proof. repeat split. Qed.

(** A run that completes is the setup followed by 500 iterations. *)
Lemma run_shape w0 :
  result (run_notebook w0) = inr tt ->
  exists a answers,
    length answers = 500%nat /\
    trace (run_cells setup_cells (fresh w0)) = setup_events a /\
    ns (final (run_cells setup_cells (fresh w0))) = setup_names a /\
    trace (run_notebook w0) =
    setup_events a ++
    loop_events (a_model a) (a_x a) (a_y a) (a_loss_fn a) (range 500) answers.
Proof.
  rewrite notebook_run.
  destruct (setup_run w0) as [_ H9]. cbn zeta in H9.
  destruct (run_cells setup_cells (fresh w0)) as [tr9 s9 [err|[]]];
    cbn [result trace final] in *; [discriminate|].
  destruct H9 as (a & Htr & Hns). intros Hres.
  rewrite cell10_run in *.
  assert (Hr : ready (a_model a) (a_x a) (a_y a) (a_loss_fn a)
                 (bind_name "learning_rate" (PFloat learning_rate) (ns s9)))
    by (rewrite Hns; apply ready_after_setup).
  pose proof (@training_loop _ _ _ _ _ _ (range 500) (State _ (w s9)) Hr) as H10.
  cbn zeta in H10.
  destruct (py_for _ _ _ _ _) as [tr10 s10 [err|[]]];
    cbn [result trace final] in *; [discriminate|].
  destruct H10 as (answers & Hlen & Htr10).
  exists a, answers. rewrite range_length in Hlen. subst. auto.
Qed.

(** A run that stops was stopped by an exception of the runtime. *)
Lemma run_error w0 err :
  result (run_notebook w0) = inl err -> exists e, err = Raised e.
Proof.
  rewrite notebook_run.
  destruct (setup_run w0) as [_ H9]. cbn zeta in H9.
  destruct (run_cells setup_cells (fresh w0)) as [tr9 s9 [err9|[]]];
    cbn [result trace final] in *.
  { intros [= <-]. exact H9. }
  destruct H9 as (a & Htr & Hns).
  rewrite cell10_run.
  assert (Hr : ready (a_model a) (a_x a) (a_y a) (a_loss_fn a)
                 (bind_name "learning_rate" (PFloat learning_rate) (ns s9)))
    by (rewrite Hns; apply ready_after_setup).
  pose proof (@training_loop _ _ _ _ _ _ (range 500) (State _ (w s9)) Hr) as H10.
  cbn zeta in H10.
  destruct (py_for _ _ _ _ _) as [tr10 s10 [err10|[]]];
    cbn [result trace final] in *; [|discriminate].
  intros [= <-]. exact H10.
Qed.

End Whole.

Section RunFacts.
Context {Ob : Objects} {R : Runtime}.

(** Cell 10 adds only training events to the trace and rebinds only its
    own names. *)
Lemma run_split w0 :
  let o9 := run_cells setup_cells (fresh w0) in
  exists tr10,
    trace (run_notebook w0) = trace o9 ++ tr10 /\
    Forall loop_emit tr10 /\
    forall n, ~ cell10_store n ->
      lookup n (ns (final (run_notebook w0))) = lookup n (ns (final o9)).
Proof.
  cbn zeta. rewrite notebook_run.
  destruct (run_cells setup_cells (fresh w0)) as [tr9 s9 [err|[]]];
    cbn [result trace final].
  - exists []. rewrite app_nil_r. repeat split; auto.
  - destruct (built_well_behaved built_cell10 s9) as (He & _ & _ & Hn & _).
    exists (trace (block cell10 s9)). repeat split; assumption.
Qed.

Lemma stops_with_not_quiet tr e : stops_with tr e -> ~ quiet tr.
Proof.
  unfold quiet. induction tr as [|ev tr IH]; intros Hs Hq; [exact Hs|].
  inversion Hq as [|ev' tr' Hev Htr]; subst. destruct tr as [|ev2 tr].
  - cbn in Hs. congruence.
  - destruct Hs as [_ Hs]. exact (IH Hs Htr).
Qed.

(** A run completes exactly when none of its calls raised: the notebook
    itself never fails on an unbound name or a value of the wrong kind. *)
Lemma completes_iff_quiet w0 :
  result (run_notebook w0) = inr tt <-> quiet (trace (run_notebook w0)).
Proof.
  destruct (built_well_behaved built_notebook (fresh w0)) as (_ & _ & _ & _ & H).
  fold (run_notebook w0) in H.
  destruct (result (run_notebook w0)) as [err|[]] eqn:E.
  - destruct (run_error _ E) as [e ->]. split; [discriminate|].
    intros Hq. apply stops_with_not_quiet in H. contradiction.
  - split; [intros _; exact H|reflexivity].
Qed.

Lemma loop_emit_not_set_default ev : loop_emit ev -> is_set_default ev = false.
Proof.
  unfold loop_emit. destruct ev as [X c r|line]; [|reflexivity].
  destruct c; cbn; congruence.
Qed.

Lemma loop_emit_not_builds ev : loop_emit ev -> builds_module ev = false.
Proof.
  unfold loop_emit. destruct ev as [X c r|line]; [|reflexivity].
  destruct c; cbn; congruence.
Qed.

Lemma loop_emit_not_criterion ev : loop_emit ev -> builds_criterion ev = false.
Proof.
  unfold loop_emit. destruct ev as [X c r|line]; [|reflexivity].
  destruct c; cbn; congruence.
Qed.

Lemma loop_emit_not_sequential ev : loop_emit ev -> is_sequential ev = false.
Proof.
  unfold loop_emit. destruct ev as [X c r|line]; [|reflexivity].
  destruct c; cbn; congruence.
Qed.

(** In a run that completes, what cell 10 added is the loop's events. *)
Lemma run_loop_part w0 :
  result (run_notebook w0) = inr tt ->
  exists a answers,
    length answers = 500%nat /\
    ns (final (run_cells setup_cells (fresh w0))) = setup_names a /\
    trace (run_notebook w0) =
    setup_events a ++
    loop_events (a_model a) (a_x a) (a_y a) (a_loss_fn a) (range 500) answers /\
    Forall loop_emit
      (loop_events (a_model a) (a_x a) (a_y a) (a_loss_fn a) (range 500) answers) /\
    forall n, ~ cell10_store n ->
      lookup n (ns (final (run_notebook w0))) = lookup n (setup_names a).
Proof.
  intros Hres.
  destruct (run_shape _ Hres) as (a & answers & Hlen & Htr9 & Hns & Htr).
  destruct (run_split w0) as (tr10 & Htr' & He & Hn).
  exists a, answers. rewrite <- Hns.
  split; [exact Hlen|]. split; [reflexivity|]. split; [exact Htr|].
  split; [|exact Hn].
  rewrite Htr9, Htr in Htr'. apply app_inv_head in Htr'. subst tr10. exact He.
Qed.

End RunFacts.

Section LoopFacts.
Context {Ob : Objects} {R : Runtime}.

Lemma phases_from_skip last tr1 tr2 :
  Forall (fun ev => phase_of ev = None) tr1 ->
  phases_from last (tr1 ++ tr2) = phases_from last tr2.
Proof.
  induction 1 as [|ev tr1 Hev _ IH]; cbn [app phases_from]; [reflexivity|].
  rewrite Hev. exact IH.
Qed.

Lemma setup_events_no_phase a :
  Forall (fun ev => phase_of ev = None) (setup_events a).
Proof.
  unfold setup_events. destruct (a_use_cuda a); cbn [app];
    repeat (apply Forall_cons; [reflexivity|]); apply Forall_nil.
Qed.

Lemma phases_updates us rest :
  phases_from (Some ParameterUpdate) (flat_map update_events us ++ rest) =
  phases_from (Some ParameterUpdate) rest.
Proof.
  induction us as [|u us IH]; [reflexivity|].
  cbn [flat_map]. rewrite <- app_assoc. exact IH.
Qed.

Lemma phases_step last m x y c t a rest :
  last <> Some ForwardPass ->
  phases_from last (step_events m x y c t a ++ rest) =
  iteration_phases ++ phases_from (Some ParameterUpdate) rest.
Proof.
  intros Hlast. unfold step_events. rewrite <- app_assoc.
  cbn [app phases_from phase_of phase_eqb]. rewrite phases_updates.
  destruct last as [[]|]; try reflexivity. contradiction.
Qed.

Lemma phases_loop m x y c ts : forall answers last,
  length answers = length ts -> last <> Some ForwardPass ->
  phases_from last (loop_events m x y c ts answers) =
  concat (repeat iteration_phases (length ts)).
Proof.
  induction ts as [|t ts IH]; intros [|a answers] last Hlen Hlast;
    try discriminate; [reflexivity|].
  cbn [loop_events length repeat concat].
  rewrite phases_step by exact Hlast. f_equal.
  apply IH; [cbn in Hlen; congruence|discriminate].
Qed.

Lemma collect_updates A (f : event -> option A) us :
  (forall u, collect f (update_events u) = []) ->
  collect f (flat_map update_events us) = [].
Proof.
  intros Hf. induction us as [|u us IH]; [reflexivity|].
  cbn [flat_map]. rewrite collect_app, Hf, IH. reflexivity.
Qed.

Lemma forward_inputs_loop m x y c ts : forall answers,
  length answers = length ts ->
  forward_inputs (loop_events m x y c ts answers) = repeat x (length ts).
Proof.
  unfold forward_inputs.
  induction ts as [|t ts IH]; intros [|a answers] Hlen; try discriminate;
    [reflexivity|].
  cbn [loop_events length repeat]. rewrite collect_app. unfold step_events at 1.
  rewrite collect_app, collect_updates by reflexivity.
  cbn [collect app]. f_equal. apply IH. cbn in Hlen; congruence.
Qed.

Lemma loss_targets_loop m x y c ts : forall answers,
  length answers = length ts ->
  loss_targets (loop_events m x y c ts answers) = repeat y (length ts).
Proof.
  unfold loss_targets.
  induction ts as [|t ts IH]; intros [|a answers] Hlen; try discriminate;
    [reflexivity|].
  cbn [loop_events length repeat]. rewrite collect_app. unfold step_events at 1.
  rewrite collect_app, collect_updates by reflexivity.
  cbn [collect app]. f_equal. apply IH. cbn in Hlen; congruence.
Qed.

Lemma parameter_lists_loop m x y c ts : forall answers,
  length answers = length ts ->
  parameter_lists (loop_events m x y c ts answers) =
  map (fun a => map u_param (s_updates a)) answers.
Proof.
  unfold parameter_lists.
  induction ts as [|t ts IH]; intros [|a answers] Hlen; try discriminate;
    [reflexivity|].
  cbn [loop_events map]. rewrite collect_app. unfold step_events at 1.
  rewrite collect_app, collect_updates by reflexivity.
  cbn [collect app]. f_equal. apply IH. cbn in Hlen; congruence.
Qed.

Lemma update_calls_updates us :
  update_calls (flat_map update_events us) = flat_map update_events us.
Proof.
  unfold update_calls. induction us as [|u us IH]; [reflexivity|].
  cbn [flat_map]. rewrite filter_app, IH. reflexivity.
Qed.

Lemma update_calls_loop m x y c ts : forall answers,
  length answers = length ts ->
  update_calls (loop_events m x y c ts answers) =
  flat_map (fun a => flat_map update_events (s_updates a)) answers.
Proof.
  induction ts as [|t ts IH]; intros [|a answers] Hlen; try discriminate;
    [reflexivity|].
  cbn [loop_events flat_map]. unfold update_calls at 1.
  rewrite filter_app. fold update_calls. unfold step_events at 1.
  unfold update_calls at 1. rewrite filter_app. fold update_calls.
  rewrite update_calls_updates. cbn [update_calls filter app]. f_equal.
  apply IH. cbn in Hlen; congruence.
Qed.

End LoopFacts.

Section Iterations.
Context {Ob : Objects} {R : Runtime}.

(** The events of iteration [k], between those before and those after. *)
Lemma loop_events_split m x y c : forall k ts answers t a,
  nth_error ts k = Some t -> nth_error answers k = Some a ->
  loop_events m x y c ts answers =
  loop_events m x y c (firstn k ts) (firstn k answers) ++
  step_events m x y c t a ++
  loop_events m x y c (skipn (S k) ts) (skipn (S k) answers).
Proof.
  induction k as [|k IH]; intros [|t0 ts] [|a0 answers] t a Ht Ha;
    try discriminate; cbn in Ht, Ha.
  - injection Ht as ->. injection Ha as ->. reflexivity.
  - cbn [firstn skipn loop_events]. rewrite <- app_assoc. f_equal.
    apply IH; assumption.
Qed.

Lemma range_nth n k : (k < n)%nat -> nth_error (range n) k = Some (Z.of_nat k).
Proof.
  intros Hk. unfold range. rewrite nth_error_map.
  rewrite (nth_error_nth' _ 0%nat) by (rewrite length_seq; exact Hk).
  rewrite seq_nth by exact Hk. reflexivity.
Qed.

Lemma seq_firstn : forall k n start,
  (k <= n)%nat -> firstn k (seq start n) = seq start k.
Proof.
  induction k as [|k IH]; intros [|n] start Hk; try reflexivity; [lia|].
  cbn [seq firstn]. f_equal. apply IH. lia.
Qed.

Lemma range_firstn n k : (k <= n)%nat -> firstn k (range n) = range k.
Proof.
  intros Hk. unfold range. rewrite firstn_map, seq_firstn by exact Hk.
  reflexivity.
Qed.

End Iterations.

(** ** What the training loop leaves alone *)

Section Frame.
Context {Ob : Objects} {R : Runtime}.
Variable D : Type.
Variable obs : world -> D.
Variable inv : world -> Prop.
Variable m : module.
Hypothesis Hun : unaffected obs inv m.

Lemma kept_pure X (c : call X) w0 w1 :
  training_footprint c = Some ReadOnly \/
  training_footprint c = Some WritesGradients ->
  kept obs inv w0 w1 -> kept obs inv w0 (snd (handle c w1)).
Proof.
  intros Hc [Hi Ho]. destruct (proj1 Hun X c w1 Hi Hc) as [Hi' Ho'].
  split; [exact Hi'|congruence].
Qed.

Lemma kept_update p u w0 w1 :
  safe_target obs inv p -> kept obs inv w0 w1 -> kept obs inv w0 (snd (handle (DataISub p u) w1)).
Proof.
  intros Hp [Hi Ho]. destruct (Hp u w1 Hi) as [Hi' Ho'].
  split; [exact Hi'|congruence].
Qed.

Ltac kept_call :=
  match goal with
  | Hk : kept obs inv ?w0 ?w1 |- context [handle ?c ?w1] =>
      let Hk' := fresh "Hk" in
      first
        [ pose proof (@kept_pure _ c _ _ (or_introl eq_refl) Hk) as Hk'
        | pose proof (@kept_pure _ c _ _ (or_intror eq_refl) Hk) as Hk' ];
      let e := fresh "e" in let x := fresh "x" in let w' := fresh "w" in
      destruct (handle c w1) as [[e|x] w']; cbn [snd] in Hk'; clear Hk;
      rename Hk' into Hk; look; [exact Hk|]
  end.

Lemma update_loop_kept ps : forall s w0,
  lookup "learning_rate" (ns s) = Some (PFloat learning_rate) ->
  (forall p, In p ps -> safe_target obs inv p) ->
  kept obs inv w0 (w s) ->
  kept obs inv w0 (w (final (py_for "param" PVariable ps [update_param] s))).
Proof.
  induction ps as [|p ps IH]; intros [names w1] w0 Hlr Hsafe Hk;
    cbn [ns w] in Hlr, Hk.
  - exact Hk.
  - rewrite py_for_cons, bind_run.
    set (rest := py_for "param" PVariable ps [update_param]) in *.
    unfold update_param. look.
    do 2 kept_call.
    match goal with
    | |- context [handle (DataISub p ?u) ?w3] =>
        pose proof (@kept_update p u _ _ (Hsafe p (or_introl eq_refl)) Hk) as Hk2;
        destruct (handle (DataISub p u) w3) as [[e|[]] w4]
    end; cbn [snd] in Hk2; look; [exact Hk2|].
    match goal with
    | |- context [rest ?s] =>
        specialize (IH s w0 Hlr (fun q Hq => Hsafe q (or_intror Hq)) Hk2);
        destruct (rest s) as [tr s2 [err|[]]]
    end; look; exact IH.
Qed.

Lemma training_step_kept x y c t s w0 :
  ready m x y c (ns s) ->
  kept obs inv w0 (w s) ->
  kept obs inv w0 (w (final ((store "t" (PInt t) ;; block training_body) s))).
Proof.
  destruct s as [names w1]. intros Hr Hk.
  pose proof Hr as (Hm & Hx & Hy & Hc & Hl). cbn [ns w] in *.
  unfold training_body. look.
  do 5 kept_call.
  pose proof (@kept_pure _ (Parameters m) _ _ (or_introl eq_refl) Hk) as Hk5.
  match goal with
  | |- context [handle (Parameters m) ?w6] =>
      assert (Hsafe : forall ps, fst (handle (Parameters m) w6) = inr ps ->
                        forall p, In p ps -> safe_target obs inv p)
        by (intros ps Hps p Hp u w' Hw'; destruct Hk as [Hi _];
            exact (proj2 Hun w6 ps p u w' Hi Hps Hp Hw'));
      destruct (handle (Parameters m) w6) as [[e|ps] w7]
  end; cbn [snd fst] in *; look; [exact Hk5|].
  match goal with
  | |- context [py_for "param" PVariable ps ?body ?s] =>
      pose proof (@update_loop_kept ps s w0 Hl (Hsafe ps eq_refl) Hk5) as Hu;
      destruct (py_for "param" PVariable ps body s) as [tr s2 [err|[]]]
  end; look; exact Hu.
Qed.

Lemma training_loop_kept x y c ts : forall s w0,
  ready m x y c (ns s) ->
  kept obs inv w0 (w s) ->
  kept obs inv w0 (w (final (py_for "t" PInt ts training_body s))).
Proof.
  induction ts as [|t ts IH]; intros s w0 Hr Hk.
  - exact Hk.
  - rewrite py_for_cons, bind_run.
    pose proof (@training_step_kept x y c t s w0 Hr Hk) as Hk1.
    destruct (@training_step _ _ m x y c t s Hr) as [Hr1 _]. cbn zeta in Hr1.
    destruct ((store "t" (PInt t) ;; block training_body) s)
      as [tr1 s1 [err|[]]]; cbn [final] in *; [exact Hk1|].
    specialize (IH s1 w0 Hr1 Hk1).
    destruct (py_for "t" PInt ts training_body s1) as [tr2 s2 r]; exact IH.
Qed.

End Frame.

(** ** The default tensor type *)

Section DefaultFacts.
Context {Ob : Objects} {R : Runtime}.
Variable default_of : world -> tensor_type.
Variable type_of : tensor -> tensor_type.
Hypothesis Hdoc : default_type_documented default_of type_of.

Lemma is_set_default_call X (c : call X) r :
  is_set_default (Ev c r) = sets_default_type c.
Proof. destruct c; reflexivity. Qed.

Lemma default_kept tr : forall w0,
  Forall (fun ev => is_set_default ev = false) tr ->
  default_of (world_after w0 tr) = default_of w0.
Proof.
  destruct Hdoc as (_ & _ & Hkeep).
  induction tr as [|ev tr IH]; intros w0 H; [reflexivity|].
  inversion H as [|ev' tr' Hev Htr]; subst.
  destruct ev as [X c r|line]; cbn [world_after]; rewrite IH by assumption.
  - apply Hkeep. rewrite <- (is_set_default_call c r). exact Hev.
  - reflexivity.
Qed.

Lemma genuine_at w0 tr1 X (c : call X) r tr2 :
  genuine w0 (tr1 ++ Ev c r :: tr2) ->
  fst (handle c (world_after w0 tr1)) = r.
Proof.
  intros H. apply genuine_app in H. destruct H as [_ H]. apply H.
Qed.

Lemma filter_none_inv (f : event -> bool) tr :
  filter f tr = [] -> Forall (fun ev => f ev = false) tr.
Proof.
  induction tr as [|ev tr IH]; cbn; [constructor|].
  destruct (f ev) eqn:E; [discriminate|]. constructor; auto.
Qed.

Lemma filter_one_split (f : event -> bool) tr ev :
  filter f tr = [ev] ->
  exists before after,
    tr = before ++ ev :: after /\
    Forall (fun ev' => f ev' = false) before /\
    Forall (fun ev' => f ev' = false) after.
Proof.
  induction tr as [|ev0 tr IH]; cbn; [discriminate|].
  destruct (f ev0) eqn:E.
  - intros [= -> H]. exists [], tr. repeat split; [constructor|].
    apply filter_none_inv. exact H.
  - intros H. destruct (IH H) as (before & after & -> & Hb & Ha).
    exists (ev0 :: before), after. repeat split; auto.
Qed.

(** The default tensor type at the end of a run, from the calls that
    set it. *)
Lemma default_at_end w0 :
  let o := run_notebook w0 in
  (filter is_set_default (trace o) = [] ->
   default_of (w (final o)) = default_of w0) /\
  (filter is_set_default (trace o) =
   [ Ev (SetDefaultTensorType "torch.cuda.FloatTensor") (inr tt) ] ->
   default_of (w (final o)) = TensorType CUDA Float).
Proof.
  cbn zeta.
  destruct (built_well_behaved built_notebook (fresh w0)) as (_ & Hg & Hw & _).
  fold (run_notebook w0) in Hg, Hw. cbn [w fresh] in Hg, Hw. rewrite Hw.
  split; intros H.
  - apply default_kept, filter_none_inv, H.
  - destruct (filter_one_split _ _ H) as (before & after & E & Hb & Ha).
    rewrite E in Hg |- *. rewrite world_after_app. cbn [world_after].
    rewrite default_kept by exact Ha.
    apply Hdoc. eapply genuine_at. exact Hg.
Qed.

(** The types of the tensors [torch.randn] made in a run that
    completes: the one of cell 4 has the default the runtime started
    with, the two of cell 7 the default as cell 5 left it. *)
Lemma drawn_types w0 a answers :
  trace (run_notebook w0) =
  setup_events a ++
  loop_events (a_model a) (a_x a) (a_y a) (a_loss_fn a) (range 500) answers ->
  type_of (a_b0 a) = default_of w0 /\
  let backend := if a_use_cuda a then TensorType CUDA Float else default_of w0 in
  type_of (a_x0 a) = backend /\ type_of (a_y0 a) = backend.
Proof.
  intros Htr.
  destruct (built_well_behaved built_notebook (fresh w0)) as (_ & Hg & _).
  fold (run_notebook w0) in Hg. cbn [w fresh] in Hg.
  rewrite Htr in Hg. apply genuine_app in Hg. destruct Hg as [Hg _].
  destruct Hdoc as (Hset & Hrandn & Hkeep).
  unfold setup_events in Hg.
  destruct (a_use_cuda a); cbn [app genuine] in Hg; cbn zeta;
    repeat match goal with H : _ /\ _ |- _ => destruct H end;
    repeat match goal with
    | H : fst (handle (Randn _) _) = inr _ |- _ =>
        apply Hrandn in H; rewrite !Hkeep in H by reflexivity
    end.
  - match goal with
    | H : fst (handle (SetDefaultTensorType _) _) = inr tt |- _ =>
        apply Hset in H; rewrite H in *
    end.
    repeat split; assumption.
  - repeat split; assumption.
Qed.

End DefaultFacts.

Section StatementFacts.
Context {Ob : Objects} {R : Runtime}.

(** The events of the statements, put end to end, are the trace of the
    block. *)
Lemma run_each_concat body : forall s,
  concat (run_each body s) = trace (block body s).
Proof.
  induction body as [|st body IH]; intros s; [reflexivity|].
  cbn [run_each block]. rewrite bind_run.
  destruct (st s) as [tr s1 [e|[]]]; cbn [concat trace].
  - apply app_nil_r.
  - rewrite IH. destruct (block body s1). reflexivity.
Qed.

Lemma loop_emit_not_sets_or_draws ev : loop_emit ev -> sets_or_draws ev = false.
Proof.
  unfold loop_emit, sets_or_draws.
  destruct ev as [X c r|line]; [|reflexivity].
  destruct c; cbn; congruence.
Qed.

(** An iteration that completes, statement by statement. *)
Lemma body_segments m x y c t s :
  ready m x y c (ns s) ->
  lookup "t" (ns s) = Some (PInt t) ->
  result (block training_body s) = inr tt ->
  exists a, run_each training_body s = step_segments m x y c t a.
Proof.
  destruct s as [names w0]. intros Hr Ht.
  pose proof Hr as (Hm & Hx & Hy & Hc & Hl). cbn [ns] in *.
  unfold training_body. cbv beta iota delta [run_each]. look.
  do 6 (match goal with
        | |- context [handle ?c ?w] =>
            let e := fresh "e" in let x := fresh "x" in let w' := fresh "w" in
            destruct (handle c w) as [[e|x] w']; look; [discriminate|]
        end).
  match goal with
  | |- context [py_for "param" PVariable ?ps ?body ?s] =>
      pose proof (@update_loop _ _ ps s Hl) as Hu; cbn zeta in Hu;
      destruct (py_for "param" PVariable ps body s) as [tr s2 [err|[]]]
  end; look; [discriminate|].
  intros _. destruct Hu as (us & Hus & Htr). cbn [trace] in *.
  repeat match goal with u : unit |- _ => destruct u end.
  match goal with
  | |- context [Ev (Forward _ _) (inr ?yp)] =>
      match goal with
      | |- context [Ev (CriterionApply _ _ _) (inr ?l)] =>
          match goal with
          | |- context [Ev (Item0 _) (inr ?f)] =>
              exists (StepAnswer yp l f us)
          end
      end
  end.
  unfold step_segments, loss_line. cbn [s_pred s_loss s_item s_updates app].
  rewrite Hus, Htr. reflexivity.
Qed.

End StatementFacts.

Section Claims.
Context {Ob : Objects} {R : Runtime}.

(** C5.  The notebook handles no error.  A run that completes met no
    exception; a run that does not complete ends with the exception of
    the runtime call that raised it: that call is the last event of the
    trace, no earlier call raised, and the exception is the result of the
    run as it is. *)
Theorem errors_propagate_unhandled w0 :
  let o := run_notebook w0 in
  match result o with
  | inr _ => quiet (trace o)
  | inl err => exists e, err = Raised e /\ stops_with (trace o) e
  end.
Proof.
  cbn zeta.
  destruct (built_well_behaved built_notebook (fresh w0)) as (_ & _ & _ & _ & H).
  fold (run_notebook w0) in H.
  destruct (result (run_notebook w0)) as [err|[]] eqn:E; [|exact H].
  destruct (run_error _ E) as [e ->]. eauto.
Qed.

(** C4, amended.  Setting the default tensor type is a step of cell 5
    under [if use_cuda:].  In the runs that bound [use_cuda] to [True] it
    is made by one call, with ['torch.cuda.FloatTensor']; in every other
    run it is not made.  In a run that completes, [torch.randn] is called
    once before that step, for [b], and twice after it, for the tensors
    of [x] and [y].  For a runtime whose default tensor type is as torch
    documents it, the tensor of [b] has the type the runtime started
    with, the tensors of [x] and [y] have the CUDA float type when the
    step was made and the type the runtime started with when it was
    not, and at the end of any run the default is the CUDA float type
    if the one call succeeded and unchanged if no call was made. *)
Theorem default_type_set_only_with_cuda
    (default_of : world -> tensor_type) (type_of : tensor -> tensor_type) w0 :
  let o := run_notebook w0 in
  let set_cuda := SetDefaultTensorType "torch.cuda.FloatTensor" in
  (if use_cuda_set (ns (final o))
   then exists r, filter is_set_default (trace o) = [ Ev set_cuda r ]
   else filter is_set_default (trace o) = []) /\
  (result o = inr tt ->
   exists b0 x0 x y0 y,
     filter sets_or_draws (trace o) =
     Ev (Randn [2]) (inr b0)
     :: (if use_cuda_set (ns (final o)) then [ Ev set_cuda (inr tt) ] else [])
     ++ [ Ev (Randn [64; 1000]) (inr x0); Ev (Randn [64; 10]) (inr y0) ] /\
     In (Ev (MkVariable x0 None) (inr x)) (trace o) /\
     In (Ev (MkVariable y0 (Some false)) (inr y)) (trace o) /\
     lookup "x" (ns (final o)) = Some (PVariable x) /\
     lookup "y" (ns (final o)) = Some (PVariable y) /\
     (default_type_documented default_of type_of ->
      let backend :=
        if use_cuda_set (ns (final o))
        then TensorType CUDA Float else default_of w0 in
      type_of b0 = default_of w0 /\
      type_of x0 = backend /\ type_of y0 = backend)) /\
  (default_type_documented default_of type_of ->
   (filter is_set_default (trace o) = [] ->
    default_of (w (final o)) = default_of w0) /\
   (filter is_set_default (trace o) = [ Ev set_cuda (inr tt) ] ->
    default_of (w (final o)) = TensorType CUDA Float)).
Proof.
  cbn zeta. split; [|split].
  - destruct (run_split w0) as (tr10 & Htr & He & Hn).
    destruct (setup_run w0) as [H9 _]. unfold set_default_guarded in H9.
    rewrite Htr, filter_app.
    rewrite (filter_none is_set_default (tr := tr10)), app_nil_r
      by (eapply Forall_impl; [apply loop_emit_not_set_default|exact He]).
    unfold use_cuda_set in *. rewrite Hn; [exact H9|].
    cbv. intuition discriminate.
  - intros Hres.
    destruct (run_loop_part _ Hres) as (a & answers & _ & _ & Htr & He & Hn).
    exists (a_b0 a), (a_x0 a), (a_x a), (a_y0 a), (a_y a).
    assert (Huse : use_cuda_set (ns (final (run_notebook w0))) = a_use_cuda a).
    { unfold use_cuda_set. rewrite Hn by (cbv; intuition discriminate).
      cbn. destruct (a_use_cuda a); reflexivity. }
    rewrite Huse, !Hn by (cbv; intuition discriminate).
    split; [|split; [|split; [|split; [reflexivity|split; [reflexivity|]]]]].
    + rewrite Htr, filter_app.
      rewrite (filter_none sets_or_draws (tr := loop_events _ _ _ _ _ _)), app_nil_r
        by (eapply Forall_impl; [apply loop_emit_not_sets_or_draws|exact He]).
      unfold setup_events. destruct (a_use_cuda a); reflexivity.
    + rewrite Htr. apply in_or_app. left. unfold setup_events.
      destruct (a_use_cuda a); cbn; tauto.
    + rewrite Htr. apply in_or_app. left. unfold setup_events.
      destruct (a_use_cuda a); cbn; tauto.
    + intros Hdoc.
      exact (@drawn_types _ _ default_of type_of Hdoc w0 a answers Htr).
  - intros Hdoc. exact (@default_at_end _ _ default_of type_of Hdoc w0).
Qed.

(** C2.  In a run that completes, the calls that construct modules are,
    in this order, [nn.Linear(1000, 100)], [nn.ReLU()], [nn.Linear(100, 10)]
    and one [nn.Sequential] of exactly these three; [model] is bound to
    what that call returned. *)
Theorem model_is_two_layer_sequential w0 :
  result (run_notebook w0) = inr tt ->
  exists l1 relu l2 m,
    filter builds_module (trace (run_notebook w0)) =
    [ Ev (Linear 1000 100) (inr l1); Ev ReLU (inr relu);
      Ev (Linear 100 10) (inr l2); Ev (Sequential [l1; relu; l2]) (inr m) ] /\
    filter is_sequential (trace (run_notebook w0)) =
    [ Ev (Sequential [l1; relu; l2]) (inr m) ] /\
    lookup "model" (ns (final (run_notebook w0))) = Some (PModule m).
Proof.
  intros Hres.
  destruct (run_loop_part _ Hres) as (a & answers & _ & _ & Htr & He & Hn).
  exists (a_l1 a), (a_relu a), (a_l2 a), (a_model a).
  rewrite Htr, !filter_app.
  rewrite (filter_none builds_module (tr := loop_events _ _ _ _ _ _))
    by (eapply Forall_impl; [apply loop_emit_not_builds|exact He]).
  rewrite (filter_none is_sequential (tr := loop_events _ _ _ _ _ _))
    by (eapply Forall_impl; [apply loop_emit_not_sequential|exact He]).
  rewrite !app_nil_r, Hn by (cbv; intuition discriminate).
  unfold setup_events. destruct (a_use_cuda a); repeat split.
Qed.

(** C1.  A run that completes is the run of cells 1 to 9 followed by
    exactly 500 iterations, the iteration for [t] being the events of
    [step_events] in their order; the phases the run goes through are 500
    times forward pass, loss computation, gradient zeroing, backward pass,
    parameter update. *)
Theorem training_loop_runs_500_iterations w0 :
  result (run_notebook w0) = inr tt ->
  (exists a answers,
     length answers = 500%nat /\
     trace (run_notebook w0) =
     setup_events a ++
     loop_events (a_model a) (a_x a) (a_y a) (a_loss_fn a) (range 500) answers) /\
  phases (trace (run_notebook w0)) = concat (repeat iteration_phases 500) /\
  length (forward_inputs (trace (run_notebook w0))) = 500%nat.
Proof.
  intros Hres.
  destruct (run_shape _ Hres) as (a & answers & Hlen & _ & _ & Htr).
  split; [exists a, answers; split; assumption|].
  rewrite Htr. split.
  - unfold phases. rewrite phases_from_skip by apply setup_events_no_phase.
    rewrite phases_loop;
      [rewrite range_length; reflexivity
      |rewrite range_length; exact Hlen
      |discriminate].
  - unfold forward_inputs. rewrite collect_app. fold forward_inputs.
    rewrite forward_inputs_loop by (rewrite range_length; exact Hlen).
    rewrite length_app, repeat_length, range_length.
    unfold setup_events. destruct (a_use_cuda a); reflexivity.
Qed.

(** C7, amended.  The body of the training loop has six statements.  The
    first, second, fourth, fifth and sixth each work for one phase of
    gradient descent, in the order forward pass, loss computation,
    gradient zeroing, backward pass, parameter update; the third reads the
    loss value and prints it and calls none of these.  In an iteration
    that completes the six statements do, one after the other, exactly
    this: [model(x)]; [loss_fn] on its result and [y]; [loss.data[0]] and
    the print of the line with the iteration number and that value;
    [model.zero_grad()]; [backward()] on the loss; [model.parameters()]
    and the update of each parameter it returned. *)
Theorem training_body_has_six_statements :
  length training_body = 6%nat /\
  Forall2
    (fun st ph => forall s, Forall (fun ev => phase_of ev = ph) (trace (st s)))
    training_body body_phases /\
  forall m x y c t s,
    ready m x y c (ns s) ->
    lookup "t" (ns s) = Some (PInt t) ->
    concat (run_each training_body s) = trace (block training_body s) /\
    (exists r, hd_error (run_each training_body s) = Some [ Ev (Forward m x) r ]) /\
    (result (block training_body s) = inr tt ->
     exists a, run_each training_body s = step_segments m x y c t a).
Proof.
  split; [reflexivity|]. split.
  - unfold training_body, body_phases.
    repeat (apply Forall2_cons; [|]); try apply Forall2_nil; intros s;
      match goal with
      | |- Forall ?P (trace (?st s)) =>
          apply (built_well_behaved (stores := anything) (emits := P) (m := st))
      end; unfold_loads; build; try reflexivity; exact I.
  - intros m x y c t s Hr Ht.
    split; [apply run_each_concat|]. split; [|apply body_segments; assumption].
    destruct s as [names w0]. destruct Hr as (Hm & Hx & _). cbn [ns] in *.
    unfold training_body. cbn [run_each]. look.
    destruct (handle (Forward m x) w0) as [[e|yp] w1]; look;
      eexists; reflexivity.
Qed.

(** C3.  In a run that completes, [x] and [y] are variables made from
    [torch.randn(64, 1000)] and [torch.randn(64, 10)]; the model is called
    on [x] and the loss is taken against [y] in each of the 500
    iterations; and the calls that update parameters are, for every
    iteration and for every parameter [p] that [model.parameters()]
    returned in it, in that order, exactly [p.grad.data], its product with
    the learning rate [1e-4], and the in-place subtraction of that product
    from [p.data]. *)
Theorem parameters_updated_by_manual_descent w0 :
  result (run_notebook w0) = inr tt ->
  exists x0 x y0 y (updates : list (list update_answer)),
    let tr := trace (run_notebook w0) in
    In (Ev (Randn [64; 1000]) (inr x0)) tr /\
    In (Ev (MkVariable x0 None) (inr x)) tr /\
    In (Ev (Randn [64; 10]) (inr y0)) tr /\
    In (Ev (MkVariable y0 (Some false)) (inr y)) tr /\
    forward_inputs tr = repeat x 500 /\
    loss_targets tr = repeat y 500 /\
    length updates = 500%nat /\
    parameter_lists tr = map (map u_param) updates /\
    update_calls tr = flat_map (flat_map update_events) updates.
Proof.
  intros Hres.
  destruct (run_shape _ Hres) as (a & answers & Hlen & _ & _ & Htr).
  exists (a_x0 a), (a_x a), (a_y0 a), (a_y a), (map s_updates answers).
  cbn zeta.
  assert (Hin : forall ev, In ev (setup_events a) -> In ev (trace (run_notebook w0))).
  { intros ev H. rewrite Htr. apply in_or_app. left. exact H. }
  assert (Hlen' : length answers = length (range 500))
    by (rewrite range_length; exact Hlen).
  split; [|split; [|split; [|split]]];
    try (apply Hin; unfold setup_events; destruct (a_use_cuda a); cbn; tauto).
  rewrite Htr. unfold forward_inputs, loss_targets, parameter_lists, update_calls.
  rewrite !collect_app, filter_app.
  fold forward_inputs loss_targets parameter_lists update_calls.
  rewrite forward_inputs_loop, loss_targets_loop, parameter_lists_loop,
    update_calls_loop by exact Hlen'.
  rewrite range_length, length_map, map_map, flat_map_concat_map.
  assert (Hs : forward_inputs (setup_events a) = [] /\
               loss_targets (setup_events a) = [] /\
               parameter_lists (setup_events a) = [] /\
               update_calls (setup_events a) = []).
  { unfold setup_events. destruct (a_use_cuda a); repeat split. }
  destruct Hs as (-> & -> & -> & ->). cbn [app].
  repeat split; try assumption.
  rewrite (flat_map_concat_map (flat_map update_events)), map_map. reflexivity.
Qed.

Lemma trace_bind_prefix A B (m : M A) (k : A -> M B) s :
  exists more, trace (bind m k s) = trace (m s) ++ more.
Proof.
  unfold bind. destruct (m s) as [tr s1 [e|a]]; cbn [trace].
  - exists []. rewrite app_nil_r. reflexivity.
  - destruct (k a s1) as [tr' s2 r]. exists tr'. reflexivity.
Qed.

(** C9.  Whatever [torch.cuda.is_available()] answers in cell 3, the next
    call of the run is the CUDA allocation [torch.cuda.FloatTensor(2)];
    a run that completes has made it and has moved [torch.randn(2)] to
    CUDA; and when the runtime raises at the allocation, the run ends
    there with that exception: nothing is bound, and neither the default
    tensor type nor the model is reached. *)
Theorem cuda_allocation_is_unguarded w0 w1 w2 w3 version available :
  handle ImportTorch w0 = (inr tt, w1) ->
  handle TorchVersion w1 = (inr version, w2) ->
  handle CudaIsAvailable w2 = (inr available, w3) ->
  let alloc := NewTensor (TensorType CUDA Float) 2 in
  let seen :=
    [ Ev ImportTorch (inr tt); Ev TorchVersion (inr version); Print version;
      Ev CudaIsAvailable (inr available);
      Print ("CUDA available: " ++ str_bool available)%string ] in
  (exists rest,
     trace (run_notebook w0) = seen ++ Ev alloc (fst (handle alloc w3)) :: rest) /\
  (result (run_notebook w0) = inr tt ->
   exists a b0 b,
     In (Ev alloc (inr a)) (trace (run_notebook w0)) /\
     In (Ev (Randn [2]) (inr b0)) (trace (run_notebook w0)) /\
     In (Ev (Cuda b0) (inr b)) (trace (run_notebook w0))) /\
  (forall e w4,
     handle alloc w3 = (inl e, w4) ->
     run_notebook w0 =
     Outcome (seen ++ [Ev alloc (inl e)]) (State [] w4) (inl (Raised e)) /\
     filter is_set_default (trace (run_notebook w0)) = [] /\
     filter builds_module (trace (run_notebook w0)) = []).
Proof.
  intros H1 H2 H3 alloc seen.
  set (rest_cells := cell4 ++ cell5 ++ cell6 ++ cell7 ++ cell8 ++ cell9 ++ cell10).
  assert (Hrun : run_notebook w0 =
                 match block rest_cells (State [] w3) with
                 | Outcome tr s r => Outcome (seen ++ tr) s r
                 end).
  { unfold run_notebook, run_cells, notebook, setup_cells.
    cbn [concat app]. rewrite app_nil_r. fold rest_cells.
    unfold cell1 at 1, cell2 at 1, cell3 at 1. cbn [app block].
    rewrite bind_run. unfold invoke at 1. cbn [w fresh ns]. rewrite H1.
    rewrite bind_run, bind_run. unfold invoke at 1. cbn [w ns]. rewrite H2.
    unfold print at 1.
    rewrite bind_run, bind_run. unfold invoke at 1. cbn [w ns]. rewrite H3.
    unfold print at 1.
    destruct (block rest_cells _) as [tr s r]. reflexivity. }
  assert (Hcell4 : forall s,
            block rest_cells s =
            ((t <- invoke alloc ;; a <- invoke (Zero_ t) ;; store "a" (PTensor a)) ;;
             block (tl rest_cells)) s) by reflexivity.
  split; [|split].
  2:{ intros Hres.
      destruct (run_shape _ Hres) as (a & answers & _ & _ & _ & Htr).
      exists (a_a0 a), (a_b0 a), (a_b a). rewrite Htr.
      repeat split; apply in_or_app; left; unfold setup_events;
        destruct (a_use_cuda a); cbn; tauto. }
  all: rewrite Hrun.
  - rewrite Hcell4.
    destruct (trace_bind_prefix
                (t <- invoke alloc ;; a <- invoke (Zero_ t) ;; store "a" (PTensor a))
                (fun _ => block (tl rest_cells)) (State [] w3)) as [more1 Hm1].
    destruct (trace_bind_prefix (invoke alloc)
                (fun t => a <- invoke (Zero_ t) ;; store "a" (PTensor a))
                (State [] w3)) as [more2 Hm2].
    rewrite Hm2 in Hm1. clear Hm2.
    destruct (bind _ _ _) as [tr s r]. cbn [trace] in *. subst tr.
    exists (more2 ++ more1). unfold invoke. cbn [w].
    destruct (handle alloc w3) as [[e|t] w4]; reflexivity.
  - intros e w4 E.
    assert (Hb : block rest_cells (State [] w3) =
                 Outcome [Ev alloc (inl e)] (State [] w4) (inl (Raised e))).
    { rewrite Hcell4, bind_run, bind_run. unfold invoke at 1. cbn [w ns].
      rewrite E. reflexivity. }
    rewrite Hb. split; [reflexivity|split; reflexivity].
Qed.

(** C10.  From a state in which the loop's inputs are bound, and whether
    the loop completes or not: every event of the loop is a print or a call
    that writes nothing, writes gradients, or updates one variable in
    place; the loop rebinds no name but [t], [y_pred], [loss] and [param],
    so [x], [y], [learning_rate], [model] and [loss_fn] stay bound as they
    were; and whatever of the runtime is left alone by the calls that write
    nothing, by gradient writes and by in-place updates of the parameters
    of [model] is after the loop what it was before. *)
Theorem training_loop_changes_only_parameters (D : Type) (obs : world -> D) (inv : world -> Prop)
    m x y c s :
  ready m x y c (ns s) ->
  inv (w s) ->
  unaffected obs inv m ->
  let o := py_for "t" PInt (range 500) training_body s in
  obs (w (final o)) = obs (w s) /\
  (forall n, ~ In n loop_names -> lookup n (ns (final o)) = lookup n (ns s)) /\
  ready m x y c (ns (final o)) /\
  Forall (fun ev => training_event ev = true) (trace o).
Proof.
  intros Hr Hi Hun. cbn zeta.
  destruct (built_well_behaved (built_training (range 500)) s)
    as (He & _ & _ & Hn & _).
  split; [|split; [exact Hn|split; [|exact He]]].
  - apply (@training_loop_kept _ _ _ obs inv m Hun x y c (range 500) s (w s) Hr).
    split; [exact Hi|reflexivity].
  - eapply ready_frame; [exact Hr|exact Hn].
Qed.

(** C8.  For a runtime whose [nn.MSELoss] is as documented: in a run that
    completes, the criterion is made with [size_average=False]; and in
    every iteration [k] the value read from the loss and printed is the
    sum of the squared differences between the elements of the prediction
    and those of [y], the target made by [torch.randn(64, 10)], as they
    are when the loss is computed.  It is not divided by their number. *)
Theorem printed_loss_is_sum_of_squares
    (zero : pyfloat) (add sub mul : pyfloat -> pyfloat -> pyfloat)
    (div_by : pyfloat -> nat -> pyfloat)
    (size_average_of : criterion -> bool)
    (values : world -> variable -> list pyfloat) w0 :
  mse_documented zero add sub mul div_by size_average_of values ->
  result (run_notebook w0) = inr tt ->
  exists a answers,
    length answers = 500%nat /\
    trace (run_notebook w0) =
    setup_events a ++
    loop_events (a_model a) (a_x a) (a_y a) (a_loss_fn a) (range 500) answers /\
    filter builds_criterion (trace (run_notebook w0)) =
    [ Ev (MSELoss false) (inr (a_loss_fn a)) ] /\
    size_average_of (a_loss_fn a) = false /\
    forall k ans,
      nth_error answers k = Some ans ->
      let before :=
        setup_events a ++
        loop_events (a_model a) (a_x a) (a_y a) (a_loss_fn a)
          (range k) (firstn k answers) ++
        [ Ev (Forward (a_model a) (a_x a)) (inr (s_pred ans)) ] in
      let at_loss := world_after w0 before in
      In (Print (loss_line (Z.of_nat k) (s_item ans))) (trace (run_notebook w0)) /\
      s_item ans =
      sum_squared_error zero add sub mul
        (values at_loss (s_pred ans)) (values at_loss (a_y a)).
Proof.
  intros [Hmk Happly] Hres.
  destruct (run_loop_part _ Hres) as (a & answers & Hlen & _ & Htr & He & _).
  destruct (built_well_behaved built_notebook (fresh w0)) as (_ & Hg & _).
  fold (run_notebook w0) in Hg. cbn [w fresh] in Hg.
  exists a, answers.
  assert (Hflag : size_average_of (a_loss_fn a) = false).
  { destruct (@genuine_answer _ _ w0 (trace (run_notebook w0)) _
                (MSELoss false) (inr (a_loss_fn a)) Hg) as [w1 H1].
    - rewrite Htr. apply in_or_app. left. unfold setup_events.
      destruct (a_use_cuda a); cbn; tauto.
    - destruct (handle (MSELoss false) w1) as [r w2] eqn:E. cbn in H1. subst r.
      exact (Hmk _ _ _ _ E). }
  split; [exact Hlen|]. split; [exact Htr|]. split; [|split; [exact Hflag|]].
  { rewrite Htr, filter_app.
    rewrite (filter_none builds_criterion (tr := loop_events _ _ _ _ _ _)).
    - unfold setup_events. destruct (a_use_cuda a); reflexivity.
    - eapply Forall_impl; [apply loop_emit_not_criterion|exact He]. }
  intros k ans Hk before at_loss.
  assert (Hlt : (k < 500)%nat)
    by (rewrite <- Hlen; apply nth_error_Some; congruence).
  pose proof (loop_events_split (a_model a) (a_x a) (a_y a) (a_loss_fn a)
                k (range 500) answers (range_nth Hlt) Hk) as Hsplit.
  rewrite range_firstn in Hsplit by lia.
  rewrite Hsplit in Htr. rewrite Htr in Hg |- *. clear Hsplit Htr.
  split.
  { apply in_or_app. right. apply in_or_app. right. apply in_or_app. left.
    unfold step_events. cbn. tauto. }
  rewrite app_assoc in Hg. apply genuine_app in Hg. destruct Hg as [_ Hg].
  apply genuine_app in Hg. destruct Hg as [Hg _].
  unfold step_events in Hg. cbn [app genuine] in Hg.
  destruct Hg as (HF & HC & HI & _).
  subst at_loss before. rewrite app_assoc, world_after_app. cbn [world_after].
  set (wb := world_after w0 _) in *.
  set (w1 := snd (handle (Forward (a_model a) (a_x a)) wb)) in *.
  destruct (handle (CriterionApply (a_loss_fn a) (s_pred ans) (a_y a)) w1)
    as [r1 w2] eqn:E1. cbn [fst snd] in HC, HI. subst r1.
  destruct (handle (Item0 (s_loss ans)) w2) as [r2 w3] eqn:E2.
  cbn [fst] in HI. subst r2.
  rewrite (Happly _ _ _ _ _ _ _ _ E1 E2), Hflag. reflexivity.
Qed.

End Claims.

(** ** The cells one by one

    What a run that completes did in cells 2 to 8, read off its trace
    and the names it leaves bound. *)

Section Cells.
Context {Ob : Objects} {R : Runtime}.

Lemma printed_loop m x y c ts : forall answers,
  printed (loop_events m x y c ts answers) = loss_prints ts answers.
Proof.
  induction ts as [|t ts IH]; intros [|a answers]; try reflexivity.
  unfold printed in *. cbn [loop_events loss_prints].
  rewrite collect_app, IH. unfold step_events.
  rewrite collect_app, collect_updates by reflexivity. reflexivity.
Qed.

Lemma loss_prints_length ts : forall answers,
  length answers = length ts -> length (loss_prints ts answers) = length ts.
Proof.
  induction ts as [|t ts IH]; intros [|a answers] H; try discriminate; cbn; auto.
Qed.

(** X1.  A run that completes calls [print] 508 times: with the version
    string, the availability line, the five tensors and the model of
    cells 2 to 8, each the label written in the notebook followed by what
    the runtime answered, then once per iteration with the loss line, in
    the order of the iterations.  How many lines of output a string
    takes is the runtime's. *)
Theorem completed_run_prints_508_times w0 :
  result (run_notebook w0) = inr tt ->
  exists a answers,
    trace (run_notebook w0) =
    setup_events a ++
    loop_events (a_model a) (a_x a) (a_y a) (a_loss_fn a) (range 500) answers /\
    printed (trace (run_notebook w0)) =
    setup_prints a ++ loss_prints (range 500) answers /\
    length (printed (trace (run_notebook w0))) = 508%nat.
Proof.
  intros Hres.
  destruct (run_shape _ Hres) as (a & answers & Hlen & _ & _ & Htr).
  exists a, answers. split; [exact Htr|].
  assert (Hp : printed (trace (run_notebook w0)) =
               setup_prints a ++ loss_prints (range 500) answers).
  { rewrite Htr. unfold printed. rewrite collect_app. fold printed.
    rewrite printed_loop. f_equal.
    unfold setup_events. destruct (a_use_cuda a); reflexivity. }
  split; [exact Hp|].
  rewrite Hp, length_app, loss_prints_length, range_length
    by (rewrite range_length; exact Hlen).
  reflexivity.
Qed.

Lemma loop_emit_not_query ev : loop_emit ev -> is_availability_query ev = false.
Proof.
  unfold loop_emit. destruct ev as [X c r|line]; [|reflexivity].
  destruct c; cbn; congruence.
Qed.

(** X2.  [torch.cuda.is_available()] is asked twice, in cell 3 and in
    cell 5.  The first answer is printed and kept nowhere; the second is
    what [use_cuda] is bound to. *)
Theorem availability_is_asked_twice w0 :
  result (run_notebook w0) = inr tt ->
  exists shown used : bool,
    let tr := trace (run_notebook w0) in
    filter is_availability_query tr =
    [ Ev CudaIsAvailable (inr shown); Ev CudaIsAvailable (inr used) ] /\
    In (Print ("CUDA available: " ++ str_bool shown)%string) tr /\
    lookup "use_cuda" (ns (final (run_notebook w0))) = Some (PBool used).
Proof.
  intros Hres.
  destruct (run_loop_part _ Hres) as (a & answers & _ & _ & Htr & He & Hn).
  exists (a_available a), (a_use_cuda a). cbn zeta.
  rewrite !Hn by (cbv; intuition discriminate).
  rewrite Htr, filter_app.
  rewrite (filter_none is_availability_query (tr := loop_events _ _ _ _ _ _)),
    app_nil_r
    by (eapply Forall_impl; [apply loop_emit_not_query|exact He]).
  split; [|split; [|reflexivity]].
  - unfold setup_events. destruct (a_use_cuda a); reflexivity.
  - apply in_or_app. left. unfold setup_events.
    destruct (a_use_cuda a); cbn -[String.append str_bool]; tauto.
Qed.

Lemma loop_emit_not_gpu_arithmetic ev : loop_emit ev -> gpu_arithmetic ev = false.
Proof.
  unfold loop_emit. destruct ev as [X c r|line]; [|reflexivity].
  destruct c; cbn; congruence.
Qed.

(** X3.  Cell 4: [a] is the zeroed [torch.cuda.FloatTensor(2)], [b] is
    [torch.randn(2)] moved to the GPU, [c] is [a + b]; and these four
    calls are the only allocation by size, [zero_()], tensor [cuda()]
    and [+] of the whole run: [x] and [y] are never moved. *)
Theorem c_is_a_plus_b w0 :
  result (run_notebook w0) = inr tt ->
  exists a0 a b0 b c,
    let tr := trace (run_notebook w0) in
    let names := ns (final (run_notebook w0)) in
    filter gpu_arithmetic tr =
    [ Ev (NewTensor (TensorType CUDA Float) 2) (inr a0);
      Ev (Zero_ a0) (inr a);
      Ev (Cuda b0) (inr b);
      Ev (Add a b) (inr c) ] /\
    In (Ev (Randn [2]) (inr b0)) tr /\
    lookup "a" names = Some (PTensor a) /\
    lookup "b" names = Some (PTensor b) /\
    lookup "c" names = Some (PTensor c).
Proof.
  intros Hres.
  destruct (run_loop_part _ Hres) as (a & answers & _ & _ & Htr & He & Hn).
  exists (a_a0 a), (a_a a), (a_b0 a), (a_b a), (a_c a). cbn zeta.
  rewrite !Hn by (cbv; intuition discriminate).
  rewrite Htr, filter_app.
  rewrite (filter_none gpu_arithmetic (tr := loop_events _ _ _ _ _ _)), app_nil_r
    by (eapply Forall_impl; [apply loop_emit_not_gpu_arithmetic|exact He]).
  split; [|split; [|repeat split]].
  - unfold setup_events. destruct (a_use_cuda a); reflexivity.
  - apply in_or_app. left. unfold setup_events.
    destruct (a_use_cuda a); cbn; tauto.
Qed.

Lemma loop_emit_not_rows ev : loop_emit ev -> is_tensor_of_rows ev = false.
Proof.
  unfold loop_emit. destruct ev as [X c r|line]; [|reflexivity].
  destruct c; cbn; congruence.
Qed.

(** X4.  The tensor classes of cell 5 follow [use_cuda]: all three are
    the [torch.cuda] classes when it is [True] and the CPU classes
    otherwise, [Tensor] is [FloatTensor], and [d] is made by the class
    that [FloatTensor] names, from the rows written in the notebook. *)
Theorem tensor_classes_follow_use_cuda w0 :
  result (run_notebook w0) = inr tt ->
  exists (cuda : bool) d,
    let tr := trace (run_notebook w0) in
    let names := ns (final (run_notebook w0)) in
    let dev := if cuda then CUDA else CPU in
    lookup "use_cuda" names = Some (PBool cuda) /\
    lookup "FloatTensor" names = Some (PType (TensorType dev Float)) /\
    lookup "LongTensor" names = Some (PType (TensorType dev Long)) /\
    lookup "ByteTensor" names = Some (PType (TensorType dev Byte)) /\
    lookup "Tensor" names = lookup "FloatTensor" names /\
    filter is_tensor_of_rows tr =
    [ Ev (TensorOfRows (TensorType dev Float) [[1; 2; 3]; [4; 5; 6]]) (inr d) ] /\
    lookup "d" names = Some (PTensor d).
Proof.
  intros Hres.
  destruct (run_loop_part _ Hres) as (a & answers & _ & _ & Htr & He & Hn).
  exists (a_use_cuda a), (a_d a). cbn zeta.
  rewrite !Hn by (cbv; intuition discriminate).
  rewrite Htr, filter_app.
  rewrite (filter_none is_tensor_of_rows (tr := loop_events _ _ _ _ _ _)), app_nil_r
    by (eapply Forall_impl; [apply loop_emit_not_rows|exact He]).
  unfold setup_events, setup_names, float_type.
  destruct (a_use_cuda a); repeat split.
Qed.

Lemma loop_emit_not_random ev : loop_emit ev -> draws_random ev = false.
Proof.
  unfold loop_emit. destruct ev as [X c r|line]; [|reflexivity].
  destruct c; cbn; congruence.
Qed.

Lemma loop_emit_not_variable ev : loop_emit ev -> wraps_variable ev = false.
Proof.
  unfold loop_emit. destruct ev as [X c r|line]; [|reflexivity].
  destruct c; cbn; congruence.
Qed.

(** X5.  Cell 7: the sizes are bound to 64, 1000, 100 and 10;
    [torch.randn] is called three times in the whole run, for [b], for
    the 64 by 1000 input and for the 64 by 10 target, and never in the
    loop; the only variables made are [x], without a [requires_grad]
    argument, and [y], with [requires_grad=False]. *)
Theorem inputs_are_drawn_once w0 :
  result (run_notebook w0) = inr tt ->
  exists b0 x0 x y0 y,
    let tr := trace (run_notebook w0) in
    let names := ns (final (run_notebook w0)) in
    filter draws_random tr =
    [ Ev (Randn [2]) (inr b0); Ev (Randn [64; 1000]) (inr x0);
      Ev (Randn [64; 10]) (inr y0) ] /\
    filter wraps_variable tr =
    [ Ev (MkVariable x0 None) (inr x); Ev (MkVariable y0 (Some false)) (inr y) ] /\
    lookup "x" names = Some (PVariable x) /\
    lookup "y" names = Some (PVariable y) /\
    lookup "N" names = Some (PInt 64) /\
    lookup "dim_in" names = Some (PInt 1000) /\
    lookup "H" names = Some (PInt 100) /\
    lookup "dim_out" names = Some (PInt 10).
Proof.
  intros Hres.
  destruct (run_loop_part _ Hres) as (a & answers & _ & _ & Htr & He & Hn).
  exists (a_b0 a), (a_x0 a), (a_x a), (a_y0 a), (a_y a). cbn zeta.
  rewrite !Hn by (cbv; intuition discriminate).
  rewrite Htr, !filter_app.
  rewrite (filter_none draws_random (tr := loop_events _ _ _ _ _ _))
    by (eapply Forall_impl; [apply loop_emit_not_random|exact He]).
  rewrite (filter_none wraps_variable (tr := loop_events _ _ _ _ _ _))
    by (eapply Forall_impl; [apply loop_emit_not_variable|exact He]).
  rewrite !app_nil_r.
  unfold setup_events. destruct (a_use_cuda a); repeat split.
Qed.

Lemma modules_used_loop m x y c ts : forall answers,
  Forall (fun m' => m' = m) (modules_used (loop_events m x y c ts answers)).
Proof.
  induction ts as [|t ts IH]; intros [|a answers]; try solve [constructor].
  unfold modules_used in *. cbn [loop_events]. rewrite collect_app.
  apply Forall_app. split; [|apply IH].
  unfold step_events. rewrite collect_app, collect_updates by reflexivity.
  cbn. repeat constructor.
Qed.

Lemma loop_emit_not_module_cuda ev : loop_emit ev -> is_module_cuda ev = false.
Proof.
  unfold loop_emit. destruct ev as [X c r|line]; [|reflexivity].
  destruct c; cbn; congruence.
Qed.

(** X6.  Cell 8: [model.cuda()] is called under [if use_cuda:], once,
    on the module [nn.Sequential] returned, and what it returns is
    dropped: [model] stays bound to the module [nn.Sequential] returned,
    and that module is the one every forward pass, [zero_grad()] and
    [parameters()] of the loop is called on. *)
Theorem model_moved_only_with_cuda w0 :
  result (run_notebook w0) = inr tt ->
  exists layers m,
    let tr := trace (run_notebook w0) in
    let names := ns (final (run_notebook w0)) in
    In (Ev (Sequential layers) (inr m)) tr /\
    (if use_cuda_set names
     then exists moved,
       filter is_module_cuda tr = [ Ev (ModuleCuda m) (inr moved) ]
     else filter is_module_cuda tr = []) /\
    lookup "model" names = Some (PModule m) /\
    Forall (fun m' => m' = m) (modules_used tr).
Proof.
  intros Hres.
  destruct (run_loop_part _ Hres) as (a & answers & _ & _ & Htr & He & Hn).
  exists [a_l1 a; a_relu a; a_l2 a], (a_model a). cbn zeta.
  unfold use_cuda_set. rewrite !Hn by (cbv; intuition discriminate).
  rewrite Htr, filter_app.
  rewrite (filter_none is_module_cuda (tr := loop_events _ _ _ _ _ _)), app_nil_r
    by (eapply Forall_impl; [apply loop_emit_not_module_cuda|exact He]).
  unfold modules_used. rewrite collect_app. fold modules_used.
  split; [|split; [|split; [reflexivity|]]].
  - apply in_or_app. left. unfold setup_events.
    destruct (a_use_cuda a); cbn; tauto.
  - unfold setup_events, setup_names. cbn [lookup String.eqb Ascii.eqb Bool.eqb].
    destruct (a_use_cuda a); [exists (a_moved a)|]; reflexivity.
  - apply Forall_app. split; [|apply modules_used_loop].
    unfold setup_events. destruct (a_use_cuda a); constructor.
Qed.

End Cells.

(** ** Runs that stop *)

Section Stops.
Context {Ob : Objects} {R : Runtime}.

(** X7.  When [import torch] raises, the run is that one call: nothing
    is printed, nothing is bound, and the exception is the result. *)
Theorem failed_import_ends_the_run w0 e w1 :
  handle ImportTorch w0 = (inl e, w1) ->
  run_notebook w0 =
  Outcome [ Ev ImportTorch (inl e) ] (State [] w1) (inl (Raised e)).
Proof.
  intros H.
  unfold run_notebook, run_cells, notebook, setup_cells.
  cbn [concat app]. unfold cell1 at 1. cbn [app block].
  rewrite bind_run. unfold invoke at 1. cbn [w fresh ns]. rewrite H.
  reflexivity.
Qed.

(** Cells 1 to 9 make no call of a training phase and do not bind
    [learning_rate]. *)
Lemma built_setup :
  built (fun n => n <> "learning_rate") (fun ev => phase_of ev = None)
    (run_cells setup_cells).
Proof.
  unfold run_cells. apply built_block.
  cbv [setup_cells concat app cell1 cell2 cell3 cell4 cell5 cell6
       cell7 cell8 cell9].
  unfold_loads. build; try reflexivity; discriminate.
Qed.

(** X8.  When one of cells 1 to 9 stops the run, the run ends with that
    error, no call of a training phase was made, and [learning_rate],
    which cell 10 binds first, is unbound. *)
Theorem failed_setup_trains_nothing w0 err :
  result (run_cells setup_cells (fresh w0)) = inl err ->
  result (run_notebook w0) = inl err /\
  Forall (fun ev => phase_of ev = None) (trace (run_notebook w0)) /\
  lookup "learning_rate" (ns (final (run_notebook w0))) = None.
Proof.
  intros H. rewrite notebook_run.
  destruct (built_well_behaved built_setup (fresh w0)) as (He & _ & _ & Hn & _).
  destruct (run_cells setup_cells (fresh w0)) as [tr9 s9 [err9|[]]];
    cbn [result trace final] in *; [|discriminate].
  split; [exact H|]. split; [exact He|].
  rewrite Hn; [reflexivity|]. intros Hne. apply Hne. reflexivity.
Qed.

(** The statements of the loop body bind [y_pred], [loss] and [param],
    not [t]. *)
Lemma built_body_names :
  Forall (built (fun n => n <> "t") anything) training_body.
Proof.
  unfold training_body. unfold_loads.
  build; try exact I; discriminate.
Qed.

Lemma step_keeps_t t s :
  lookup "t" (ns (final ((store "t" (PInt t) ;; block training_body) s))) =
  Some (PInt t).
Proof.
  rewrite bind_run. cbn [store].
  destruct (built_well_behaved (built_block built_body_names)
              (State (bind_name "t" (PInt t) (ns s)) (w s)))
    as (_ & _ & _ & Hn & _).
  destruct (block training_body _) as [tr s1 r]; cbn [final ns] in *.
  destruct r; cbn [final]; rewrite Hn; try reflexivity;
    intros Hne; apply Hne; reflexivity.
Qed.

(** An iteration begins with the forward pass. *)
Lemma step_starts_with_forward m x y c t s :
  ready m x y c (ns s) ->
  exists r rest,
    trace ((store "t" (PInt t) ;; block training_body) s) =
    Ev (Forward m x) r :: rest.
Proof.
  destruct s as [names w0]. intros (Hm & Hx & _). cbn [ns] in *.
  unfold training_body. cbn [block].
  set (rest := _ ;; _ ;; _ ;; _ ;; _ ;; ret tt).
  look.
  destruct (handle (Forward m x) w0) as [[e|yp] w1]; look; [eauto|].
  destruct (rest _) as [tr s1 r]. eauto.
Qed.

(** A loop that stops: the iterations before the one that failed are
    complete. *)
Lemma training_loop_stops m x y c ts : forall s err,
  ready m x y c (ns s) ->
  let o := py_for "t" PInt ts training_body s in
  result o = inl err ->
  exists k t answers partial e,
    nth_error ts k = Some t /\
    length answers = k /\
    trace o = loop_events m x y c (firstn k ts) answers ++ partial /\
    (exists r rest, partial = Ev (Forward m x) r :: rest) /\
    Forall loop_emit partial /\
    stops_with partial e /\
    err = Raised e /\
    lookup "t" (ns (final o)) = Some (PInt t).
Proof.
  induction ts as [|t ts IH]; intros s err Hr; cbn zeta.
  - discriminate.
  - rewrite py_for_cons, bind_run.
    destruct (@training_step _ _ m x y c t s Hr) as [Hr1 H1]. cbn zeta in H1.
    destruct (@step_starts_with_forward m x y c t s Hr) as (r0 & rest0 & H0).
    pose proof (step_keeps_t t s) as Ht.
    assert (Hb : well_behaved loop_store loop_emit
                   (store "t" (PInt t) ;; block training_body)).
    { apply built_well_behaved. constructor.
      - constructor. cbv; tauto.
      - intros _. apply built_block, built_body. }
    destruct (Hb s) as (He & _ & _ & _ & Hs).
    destruct ((store "t" (PInt t) ;; block training_body) s)
      as [tr1 s1 [err1|[]]]; cbn [result trace final] in *.
    + intros [= <-]. destruct H1 as [e ->].
      exists 0%nat, t, [], tr1, e. cbn [nth_error firstn loop_events app length].
      repeat split; eauto.
    + specialize (IH s1 err Hr1). cbn zeta in IH.
      destruct (py_for "t" PInt ts training_body s1) as [tr2 s2 r2];
        cbn [result trace final] in *.
      intros Hres.
      destruct (IH Hres)
        as (k & t' & answers & partial & e
            & Hk & Hlen & Htr & Hhd & Hem & Hst & -> & Ht').
      destruct H1 as (a & Ha).
      exists (S k), t', (a :: answers), partial, e.
      cbn [nth_error firstn loop_events length].
      rewrite Ha, Htr, <- app_assoc, Hlen. repeat split; auto.
Qed.

(** X9.  A run that got through cells 1 to 9 and then stopped did so in
    some iteration [k] of the loop.  The [k] iterations before it are in
    the trace in full, updates included; the events after them
    are training events of iteration [k] up to the call that raised, the
    first being the forward pass; the run ends with that exception, and
    [t] is left bound to [k]. *)
Theorem failed_iteration_keeps_earlier_ones w0 err :
  result (run_cells setup_cells (fresh w0)) = inr tt ->
  result (run_notebook w0) = inl err ->
  exists a k answers partial e,
    (k < 500)%nat /\
    length answers = k /\
    trace (run_notebook w0) =
    setup_events a ++
    loop_events (a_model a) (a_x a) (a_y a) (a_loss_fn a) (range k) answers ++
    partial /\
    (exists r rest, partial = Ev (Forward (a_model a) (a_x a)) r :: rest) /\
    Forall (fun ev => training_event ev = true) partial /\
    stops_with partial e /\
    err = Raised e /\
    lookup "t" (ns (final (run_notebook w0))) = Some (PInt (Z.of_nat k)).
Proof.
  rewrite notebook_run.
  destruct (setup_run w0) as [_ H9]. cbn zeta in H9.
  destruct (run_cells setup_cells (fresh w0)) as [tr9 s9 [err9|[]]];
    cbn [result trace final] in *; [discriminate|].
  destruct H9 as (a & Htr & Hns). intros _ Hres.
  rewrite cell10_run in *.
  assert (Hr : ready (a_model a) (a_x a) (a_y a) (a_loss_fn a)
                 (bind_name "learning_rate" (PFloat learning_rate) (ns s9)))
    by (rewrite Hns; apply ready_after_setup).
  destruct (@training_loop_stops _ _ _ _ (range 500) (State _ (w s9)) err Hr Hres)
    as (k & t & answers & partial & e
        & Hk & Hlen & Htr10 & Hhd & Hem & Hst & He & Ht).
  assert (Hlt : (k < 500)%nat).
  { rewrite <- (range_length 500). apply nth_error_Some. congruence. }
  rewrite (range_nth Hlt) in Hk. injection Hk as <-.
  rewrite range_firstn in Htr10 by lia.
  exists a, k, answers, partial, e.
  rewrite Htr10, Htr. repeat split; auto.
Qed.

End Stops.

(** ** After the loop *)

Section AfterTheLoop.
Context {Ob : Objects} {R : Runtime}.

(** The loop over the parameters binds [param] only. *)
Lemma built_param_loop ps :
  built (fun n => n = "param") anything
    (py_for "param" PVariable ps [update_param]).
Proof.
  unfold_loads. build; try exact I; reflexivity.
Qed.

(** One iteration that completes leaves [t], [y_pred] and [loss] bound
    to its index, its prediction and its loss. *)
Lemma training_step_binds m x y c t s :
  ready m x y c (ns s) ->
  let o := (store "t" (PInt t) ;; block training_body) s in
  result o = inr tt ->
  exists a,
    trace o = step_events m x y c t a /\
    lookup "t" (ns (final o)) = Some (PInt t) /\
    lookup "y_pred" (ns (final o)) = Some (PVariable (s_pred a)) /\
    lookup "loss" (ns (final o)) = Some (PVariable (s_loss a)).
Proof.
  destruct s as [names w0]. intros Hr. cbn zeta.
  pose proof Hr as (Hm & Hx & Hy & Hc & Hl). cbn [ns] in *.
  unfold training_body. look.
  do 6 (match goal with
        | |- context [handle ?c ?w] =>
            let e := fresh "e" in let x := fresh "x" in let w' := fresh "w" in
            destruct (handle c w) as [[e|x] w']; look; [discriminate|]
        end).
  match goal with
  | |- context [py_for "param" PVariable ?ps ?body ?s] =>
      pose proof (@update_loop _ _ ps s Hl) as Hu; cbn zeta in Hu;
      destruct (built_well_behaved (built_param_loop ps) s)
        as (_ & _ & _ & Hf & _);
      destruct (py_for "param" PVariable ps body s) as [tr s2 [err|[]]]
  end; look; [discriminate|].
  intros _. destruct Hu as (us & Hus & Htr). cbn [trace final ns] in *.
  repeat match goal with u : unit |- _ => destruct u end.
  match goal with
  | |- context [Ev (Forward _ _) (inr ?yp)
                :: Ev (CriterionApply _ _ _) (inr ?l)
                :: Ev (Item0 _) (inr ?f) :: _] =>
      exists (StepAnswer yp l f us)
  end.
  unfold step_events, loss_line. cbn [s_pred s_loss s_item s_updates app].
  rewrite Hus, Htr, app_nil_r, !Hf by discriminate.
  repeat split.
Qed.

Lemma training_loop_binds m x y c ts : forall s,
  ts <> [] ->
  ready m x y c (ns s) ->
  let o := py_for "t" PInt ts training_body s in
  result o = inr tt ->
  exists answers t a,
    length answers = length ts /\
    trace o = loop_events m x y c ts answers /\
    nth_error ts (pred (length ts)) = Some t /\
    nth_error answers (pred (length ts)) = Some a /\
    lookup "t" (ns (final o)) = Some (PInt t) /\
    lookup "y_pred" (ns (final o)) = Some (PVariable (s_pred a)) /\
    lookup "loss" (ns (final o)) = Some (PVariable (s_loss a)).
Proof.
  induction ts as [|t ts IH]; intros s Hne Hr; cbn zeta; [contradiction|].
  rewrite py_for_cons, bind_run.
  destruct (@training_step _ _ m x y c t s Hr) as [Hr1 _].
  pose proof (@training_step_binds m x y c t s Hr) as H1. cbn zeta in H1.
  destruct ((store "t" (PInt t) ;; block training_body) s)
    as [tr1 s1 [err|[]]]; cbn [result trace final] in *; [discriminate|].
  destruct (H1 eq_refl) as (a & Ha & Ht & Hy & Hl). clear H1.
  destruct ts as [|t' ts].
  - intros _. exists [a], t, a. cbv [py_for for_each ret].
    cbn [trace final length pred nth_error loop_events].
    rewrite !app_nil_r. auto 10.
  - specialize (IH s1 ltac:(discriminate) Hr1). cbn zeta in IH.
    destruct (py_for "t" PInt (t' :: ts) training_body s1) as [tr2 s2 r2];
      cbn [result trace final] in *.
    intros Hres.
    destruct (IH Hres) as (answers & tl & al & Hlen & Htr & Hnt & Hna & H').
    exists (a :: answers), tl, al.
    split; [cbn [length] in Hlen |- *; rewrite Hlen; reflexivity|].
    split; [subst tr1 tr2; reflexivity|].
    split; [exact Hnt|]. split; [exact Hna|exact H'].
Qed.

(** X10.  After a run that completes, the loop's variables are still
    bound: [t] to 499, [y_pred] and [loss] to the prediction and the
    loss of the last iteration, [learning_rate] to [1e-4]. *)
Theorem loop_variables_outlive_the_loop w0 :
  result (run_notebook w0) = inr tt ->
  exists a answers final_step,
    let names := ns (final (run_notebook w0)) in
    trace (run_notebook w0) =
    setup_events a ++
    loop_events (a_model a) (a_x a) (a_y a) (a_loss_fn a) (range 500) answers /\
    nth_error answers 499 = Some final_step /\
    lookup "t" names = Some (PInt 499) /\
    lookup "y_pred" names = Some (PVariable (s_pred final_step)) /\
    lookup "loss" names = Some (PVariable (s_loss final_step)) /\
    lookup "learning_rate" names = Some (PFloat learning_rate).
Proof.
  rewrite notebook_run.
  destruct (setup_run w0) as [_ H9]. cbn zeta in H9.
  destruct (run_cells setup_cells (fresh w0)) as [tr9 s9 [err9|[]]];
    cbn [result trace final] in *; [discriminate|].
  destruct H9 as (a & Htr & Hns). intros Hres.
  destruct (built_well_behaved (built_training (range 500))
              (State (bind_name "learning_rate" (PFloat learning_rate) (ns s9))
                     (w s9)))
    as (_ & _ & _ & Hn & _).
  rewrite cell10_run in *.
  assert (Hr : ready (a_model a) (a_x a) (a_y a) (a_loss_fn a)
                 (bind_name "learning_rate" (PFloat learning_rate) (ns s9)))
    by (rewrite Hns; apply ready_after_setup).
  assert (Hne : range 500 <> [])
    by (intros E; apply (f_equal (@length Z)) in E;
        rewrite range_length in E; discriminate).
  destruct (@training_loop_binds _ _ _ _ (range 500) (State _ (w s9)) Hne Hr Hres)
    as (answers & t & al & Hlen & Htr10 & Ht & Hal & H').
  rewrite range_length in *. cbn [pred] in *.
  rewrite (@range_nth 500 499) in Ht by lia.
  assert (Et : t = 499) by (change 499 with (Z.of_nat 499); congruence).
  subst t. clear Ht.
  exists a, answers, al. cbn zeta.
  rewrite Htr, Htr10, (Hn "learning_rate") by (cbv; intuition discriminate).
  destruct H' as (? & ? & ?). repeat split; assumption.
Qed.

(** X11.  Running cell 10 again after a run that completed trains the
    same model further: it makes training calls only, on the model,
    input, target and criterion of the first run, for 500 more
    iterations unless the runtime raises. *)
Theorem training_cell_rerun_continues w0 :
  result (run_notebook w0) = inr tt ->
  exists a answers,
    trace (run_notebook w0) =
    setup_events a ++
    loop_events (a_model a) (a_x a) (a_y a) (a_loss_fn a) (range 500) answers /\
    let again := block cell10 (final (run_notebook w0)) in
    Forall (fun ev => training_event ev = true) (trace again) /\
    match result again with
    | inr _ => exists more,
        length more = 500%nat /\
        trace again =
        loop_events (a_model a) (a_x a) (a_y a) (a_loss_fn a) (range 500) more
    | inl err => exists e, err = Raised e
    end.
Proof.
  intros Hres.
  destruct (run_loop_part _ Hres) as (a & answers & _ & _ & Htr & _ & Hn).
  exists a, answers. split; [exact Htr|]. cbn zeta.
  destruct (built_well_behaved built_cell10 (final (run_notebook w0)))
    as (He & _).
  split; [exact He|].
  rewrite cell10_run.
  assert (Hr : ready (a_model a) (a_x a) (a_y a) (a_loss_fn a)
                 (bind_name "learning_rate" (PFloat learning_rate)
                    (ns (final (run_notebook w0))))).
  { unfold ready, bind_name. cbn [lookup String.eqb Ascii.eqb Bool.eqb].
    rewrite !Hn by (cbv; intuition discriminate). repeat split. }
  pose proof (@training_loop _ _ _ _ _ _ (range 500)
                (State _ (w (final (run_notebook w0)))) Hr) as H10.
  cbn zeta in H10. rewrite range_length in H10. exact H10.
Qed.

(** X12.  Cell 10 run where [model] is unbound, or where [model] is a
    module and [x] is unbound, stops at its first statement with the
    [NameError] of that name: it has bound [learning_rate] and [t] and
    has called nothing. *)
Theorem training_cell_needs_model_and_x s :
  let stopped :=
    State (bind_name "t" (PInt 0)
             (bind_name "learning_rate" (PFloat learning_rate) (ns s))) (w s) in
  (lookup "model" (ns s) = None ->
   block cell10 s = Outcome [] stopped (inl (NameError "model"))) /\
  (forall m,
     lookup "model" (ns s) = Some (PModule m) -> lookup "x" (ns s) = None ->
     block cell10 s = Outcome [] stopped (inl (NameError "x"))).
Proof.
  destruct s as [names w0]. cbn zeta. rewrite cell10_run. cbn [ns w].
  change (range 500) with (0 :: map Z.of_nat (seq 1 499)).
  rewrite py_for_cons, bind_run.
  set (later := py_for "t" PInt (map Z.of_nat (seq 1 499)) training_body).
  unfold training_body. cbn [block].
  set (rest := _ ;; _ ;; _ ;; _ ;; _ ;; ret tt).
  split; [intros Hm|intros m Hm Hx]; look; [rewrite Hm|rewrite Hx]; reflexivity.
Qed.

End AfterTheLoop.

(** ** The iteration label *)

Section Labels.
Context {Ob : Objects}.

Lemma substring_prefix a b :
  substring 0 (String.length a) (a ++ b)%string = a.
Proof.
  induction a as [|ch a IH]; cbn; [destruct b; reflexivity|now rewrite IH].
Qed.

Lemma uint_of_zeros k s :
  NilEmpty.uint_of_string (zeros k ++ s)%string =
  option_map (Nat.iter k Decimal.D0) (NilEmpty.uint_of_string s).
Proof.
  induction k as [|k IH]; cbn [zeros String.append Nat.iter].
  - destruct (NilEmpty.uint_of_string s); reflexivity.
  - change (String.append (String "0" EmptyString) (zeros k))
      with (String "0" (zeros k)).
    cbn [String.append NilEmpty.uint_of_string]. rewrite IH.
    destruct (NilEmpty.uint_of_string s); reflexivity.
Qed.

Lemma of_uint_zeros k d : Pos.of_uint (Nat.iter k Decimal.D0 d) = Pos.of_uint d.
Proof. induction k; cbn; auto. Qed.

(** The digits of a number: not empty, no sign, and read back as
    written. *)
Lemma digits_read n :
  let digits := NilZero.string_of_uint (N.to_uint n) in
  NilEmpty.uint_of_string digits = Some (N.to_uint n) /\
  exists ch rest, digits = String ch rest /\ ch <> "-"%char.
Proof.
  cbn zeta.
  assert (Hd : NilZero.string_of_uint (N.to_uint n) =
               NilEmpty.string_of_uint (N.to_uint n)).
  { destruct n as [|p]; [reflexivity|]. cbn [N.to_uint].
    destruct (Pos.to_uint p) eqn:E; try reflexivity.
    exfalso. revert E. apply DecimalPos.Unsigned.to_uint_nonnil. }
  rewrite Hd. split; [apply NilEmpty.usu|].
  assert (Hn : N.to_uint n <> Decimal.Nil).
  { destruct n as [|p]; [discriminate|].
    apply DecimalPos.Unsigned.to_uint_nonnil. }
  destruct (N.to_uint n); try contradiction; cbn; eexists _, _;
    (split; [reflexivity|discriminate]).
Qed.

(** [int('%03i' % t)] is [t], whatever the width. *)
Lemma fmt_03i_reads_back t : read_int (fmt_03i t) = Some t.
Proof.
  unfold read_int, fmt_03i.
  destruct (digits_read (Z.abs_N t)) as (Hu & ch & rest & Hd & Hch).
  set (digits := NilZero.string_of_uint (N.to_uint (Z.abs_N t))) in *.
  assert (Hpad : forall k,
            NilZero.uint_of_string (zeros k ++ digits)%string =
            Some (Nat.iter k Decimal.D0 (N.to_uint (Z.abs_N t)))).
  { intros k.
    assert (Hs : exists ch' rest', (zeros k ++ digits)%string = String ch' rest').
    { destruct k; cbn; [rewrite Hd|]; eauto. }
    destruct Hs as (ch' & rest' & Hs). unfold NilZero.uint_of_string.
    rewrite Hs, <- Hs, uint_of_zeros, Hu. reflexivity. }
  assert (Hval : forall k,
            Z.of_uint (Nat.iter k Decimal.D0 (N.to_uint (Z.abs_N t))) =
            Z.of_N (Z.abs_N t)).
  { intros k. unfold Z.of_uint. rewrite of_uint_zeros.
    change (Pos.of_uint (N.to_uint (Z.abs_N t)))
      with (N.of_uint (N.to_uint (Z.abs_N t))).
    rewrite Unsigned.of_to. reflexivity. }
  destruct (t <? 0) eqn:Et.
  - apply Z.ltb_lt in Et.
    cbn [String.append String.length].
    change (String.append (String "-" EmptyString) ?s) with (String "-" s).
    cbn [String.append]. unfold NilZero.int_of_string.
    cbn [Ascii.eqb Bool.eqb]. rewrite Hpad. cbn [option_map Z.of_int].
    rewrite Hval, N2Z.inj_abs_N. f_equal. lia.
  - apply Z.ltb_ge in Et. cbn [String.append String.length].
    assert (Hs : exists ch' rest',
              (zeros (3 - 0 - String.length digits) ++ digits)%string =
              String ch' rest' /\ ch' <> "-"%char).
    { destruct (3 - 0 - String.length digits)%nat; cbn.
      - rewrite Hd. eauto.
      - eexists _, _. split; [reflexivity|discriminate]. }
    destruct Hs as (ch' & rest' & Hs & Hc). unfold NilZero.int_of_string.
    rewrite Hs. apply Ascii.eqb_neq in Hc. rewrite Hc, <- Hs, Hpad.
    cbn [option_map Z.of_int]. rewrite Hval, N2Z.inj_abs_N. f_equal. lia.
Qed.

Lemma fmt_03i_width_checked :
  forallb (fun t => Nat.eqb (String.length (fmt_03i t)) 3) (range 1000) = true.
Proof. vm_compute. reflexivity. Qed.

Lemma fmt_03i_width t : 0 <= t < 1000 -> String.length (fmt_03i t) = 3%nat.
Proof.
  intros Ht. apply Nat.eqb_eq.
  apply (proj1 (forallb_forall _ _) fmt_03i_width_checked).
  unfold range. apply in_map_iff. exists (Z.to_nat t).
  split; [lia|]. apply in_seq. lia.
Qed.

(** X13.  The iteration index can be read back from a loss line: the
    label ['%03i' % t] reads as the decimal [t] whatever its width, and
    for the indices below 1000, which cover the 500 of the loop, it is
    three characters, columns 12 to 14 of the line. *)
Theorem iteration_label_reads_back t f :
  read_int (fmt_03i t) = Some t /\
  (0 <= t < 1000 ->
   String.length (fmt_03i t) = 3%nat /\
   substring 12 3 (loss_line t f) = fmt_03i t /\
   read_int (substring 12 3 (loss_line t f)) = Some t).
Proof.
  split; [apply fmt_03i_reads_back|].
  intros Ht. pose proof (fmt_03i_width Ht) as Hw.
  assert (Hs : substring 12 3 (loss_line t f) = fmt_03i t).
  { unfold loss_line.
    change (substring 12 3 ("iteration = " ++ ?s)%string) with (substring 0 3 s).
    rewrite <- Hw at 1. apply substring_prefix. }
  rewrite Hs. auto using fmt_03i_reads_back.
Qed.

End Labels.

(** ** The reference runtime meets the hypotheses *)

Module RefFacts.
Import Ref.
#[local] Existing Instance objects.
#[local] Existing Instance runtime.

Lemma completes_on_jetson : result (run_notebook jetson) = inr tt.
Proof. vm_compute. reflexivity. Qed.

Lemma use_cuda_on_jetson :
  use_cuda_set (ns (final (run_notebook jetson))) = true.
Proof. vm_compute. reflexivity. Qed.

Lemma default_type_as_documented :
  default_type_documented default_type t_type.
Proof.
  split; [|split].
  - intros w0. cbn [handle runtime handle_ref String.eqb Ascii.eqb Bool.eqb].
    destruct (gpu w0); [reflexivity|discriminate].
  - intros shape w0 t. cbn [handle runtime handle_ref].
    destruct (usable w0 (default_type w0)); [|discriminate].
    unfold draw. cbn [fst]. intros [= <-]. reflexivity.
  - intros X c w0 Hc.
    destruct c; try discriminate Hc; cbn [handle runtime handle_ref];
      unfold draw, alloc, with_heap;
      repeat match goal with
      | |- context [if ?b then _ else _] => destruct b
      | |- context [match ?x with _ => _ end] => destruct x
      end; reflexivity.
Qed.

Lemma first_iteration_ready :
  ready model 0%nat 1%nat false (ns first_iteration).
Proof. repeat split. Qed.

Lemma first_iteration_completes :
  result (block training_body first_iteration) = inr tt.
Proof. vm_compute. reflexivity. Qed.

Lemma stops_without_gpu :
  result (run_cells setup_cells (fresh cpu_only)) = inl (Raised no_cuda).
Proof. vm_compute. reflexivity. Qed.

Lemma mse_as_documented :
  mse_documented 0 Z.add Z.sub Z.mul (fun s n => s / Z.of_nat n)
    (fun c : criterion => c) values.
Proof.
  split.
  - intros sa w0 c w1 H. cbn in H. injection H as <- _. reflexivity.
  - intros c input target w0 loss w1 f w2 H1 H2.
    cbn [handle runtime handle_ref] in H1. unfold values.
    destruct (nth_error (heap w0) input) as [si|]; [|discriminate].
    destruct (nth_error (heap w0) target) as [st|]; [|discriminate].
    unfold alloc in H1. injection H1 as <- <-.
    cbn [handle runtime handle_ref with_heap heap] in H2.
    rewrite nth_error_app2, Nat.sub_diag in H2 by lia.
    cbn [nth_error v_data first_element numel fold_right] in H2.
    change (0 <? 1 * 1) with true in H2. cbn iota in H2.
    injection H2 as <- _. reflexivity.
Qed.

Lemma update_slot_length f : forall h i,
  length (update_slot h i f) = length h.
Proof.
  induction h as [|s h IH]; intros [|i]; cbn; auto.
Qed.

Lemma update_slot_data f :
  (forall s, v_data (f s) = v_data s) ->
  forall h i k,
    option_map v_data (nth_error (update_slot h i f) k) =
    option_map v_data (nth_error h k).
Proof.
  intros Hf. induction h as [|s h IH]; intros [|i] [|k]; cbn; auto.
  rewrite Hf. reflexivity.
Qed.

Lemma update_slot_other f : forall h i k,
  k <> i -> nth_error (update_slot h i f) k = nth_error h k.
Proof.
  induction h as [|s h IH]; intros [|i] [|k] Hk; cbn; auto.
  contradiction.
Qed.

Lemma fold_update_keeps f :
  (forall s, v_data (f s) = v_data s) ->
  forall ids h,
    let h' := fold_left (fun h i => update_slot h i f) ids h in
    length h' = length h /\
    forall k, option_map v_data (nth_error h' k) = option_map v_data (nth_error h k).
Proof.
  intros Hf. induction ids as [|i ids IH]; intros h; cbn zeta; cbn [fold_left].
  - auto.
  - destruct (IH (update_slot h i f)) as [Hl Hd]. cbn zeta in Hl, Hd. split.
    + rewrite Hl. apply update_slot_length.
    + intros k. rewrite Hd. apply update_slot_data. exact Hf.
Qed.

Lemma alloc_keeps s m :
  has_inputs m ->
  has_inputs (snd (alloc s m)) /\ inputs (snd (alloc s m)) = inputs m.
Proof.
  unfold has_inputs, inputs, alloc. cbn [snd with_heap heap]. intros H. split.
  - rewrite length_app. lia.
  - rewrite !nth_error_app1 by lia. reflexivity.
Qed.

Lemma training_leaves_inputs : unaffected inputs has_inputs model.
Proof.
  split.
  - intros X c w0 Hi Hc.
    destruct c; cbn [training_footprint] in Hc;
      try (destruct Hc; discriminate); cbn [handle runtime handle_ref].
    + (* Forward *)
      destruct (nth_error (heap w0) x) as [sx|]; [|auto].
      destruct (apply_module _ _ _) as [out|]; [|auto].
      destruct (alloc_keeps (Slot out None true (v_type sx)) Hi).
      destruct (alloc _ w0). auto.
    + (* CriterionApply *)
      destruct (nth_error (heap w0) input) as [si|]; [|auto].
      destruct (nth_error (heap w0) target) as [st|]; [|auto].
      cbn zeta.
      match goal with
      | |- context [alloc ?s w0] =>
          destruct (alloc_keeps s Hi); destruct (alloc s w0)
      end. auto.
    + (* Item0 *)
      destruct (nth_error (heap w0) v); [|auto].
      destruct (first_element _); auto.
    + (* ZeroGrad *)
      cbn [snd].
      destruct (@fold_update_keeps zero_grad_slot (fun s => eq_refl)
                  (parameters_of m) (heap w0)) as [Hl Hd].
      cbn zeta in Hl, Hd. unfold has_inputs, inputs, with_heap in *.
      cbn [heap]. rewrite Hl, !Hd. auto.
    + (* Backward *)
      destruct (nth_error (heap w0) v); [|auto]. cbn [snd].
      unfold has_inputs, inputs, with_heap in *. cbn [heap].
      rewrite length_map, !nth_error_map. split; [exact Hi|].
      assert (Hb : forall sl, v_data (backward_slot sl) = v_data sl)
        by (intros sl; unfold backward_slot; destruct (v_requires_grad sl);
            reflexivity).
      destruct (nth_error (heap w0) 0), (nth_error (heap w0) 1); cbn;
        rewrite ?Hb; reflexivity.
    + (* Parameters *) auto.
    + (* GradData *)
      destruct (nth_error (heap w0) p); [|auto]. destruct (v_grad _); auto.
    + (* RMul *) auto.
  - intros w0 ps p u w1 _ Hps Hp Hi.
    cbn in Hps. injection Hps as <-.
    cbn [handle runtime handle_ref].
    destruct (nth_error (heap w1) p); [|auto].
    destruct (zip_payload _ _ _); [|auto]. cbn [snd].
    unfold has_inputs, inputs, with_heap in *. cbn [heap].
    rewrite update_slot_length. split; [exact Hi|].
    rewrite !update_slot_other; [reflexivity|..];
      intros <-; cbn in Hp; intuition discriminate.
Qed.

Lemma loop_start_ready : ready model 0%nat 1%nat false (ns loop_start).
Proof. repeat split. Qed.

Lemma loop_start_has_inputs : has_inputs (w loop_start).
Proof. unfold has_inputs. vm_compute. lia. Qed.

End RefFacts.

(** ** The claims on concrete machines *)

Section OnRef.
#[local] Existing Instance Ref.objects.
#[local] Existing Instance Ref.runtime.

(** On the reference Jetson the run completes and goes 500 times through
    the five phases. *)
Lemma training_loop_runs_500_iterations_witness :
  result (run_notebook Ref.jetson) = inr tt /\
  phases (trace (run_notebook Ref.jetson)) = concat (repeat iteration_phases 500).
Proof.
  split; [exact RefFacts.completes_on_jetson|].
  apply (@training_loop_runs_500_iterations Ref.objects Ref.runtime Ref.jetson).
  exact RefFacts.completes_on_jetson.
Defined.

(** On the reference Jetson the model is built as stated. *)
Lemma model_is_two_layer_sequential_witness :
  result (run_notebook Ref.jetson) = inr tt /\
  exists l1 relu l2 m,
    filter builds_module (trace (run_notebook Ref.jetson)) =
    [ Ev (Linear 1000 100) (inr l1); Ev ReLU (inr relu);
      Ev (Linear 100 10) (inr l2); Ev (Sequential [l1; relu; l2]) (inr m) ] /\
    filter is_sequential (trace (run_notebook Ref.jetson)) =
    [ Ev (Sequential [l1; relu; l2]) (inr m) ] /\
    lookup "model" (ns (final (run_notebook Ref.jetson))) = Some (PModule m).
Proof.
  split; [exact RefFacts.completes_on_jetson|].
  apply (@model_is_two_layer_sequential Ref.objects Ref.runtime Ref.jetson).
  exact RefFacts.completes_on_jetson.
Defined.

(** On the reference Jetson the update calls are 500 rounds of manual
    descent. *)
Lemma parameters_updated_by_manual_descent_witness :
  result (run_notebook Ref.jetson) = inr tt /\
  exists updates : list (list update_answer),
    length updates = 500%nat /\
    update_calls (trace (run_notebook Ref.jetson)) =
    flat_map (flat_map update_events) updates.
Proof.
  split; [exact RefFacts.completes_on_jetson|].
  destruct (@parameters_updated_by_manual_descent Ref.objects Ref.runtime Ref.jetson)
    as (x0 & x & y0 & y & updates & H); [exact RefFacts.completes_on_jetson|].
  exists updates. cbn zeta in H.
  destruct H as (_ & _ & _ & _ & _ & _ & Hlen & _ & Hup). split; assumption.
Defined.

(** The reference runtime reduces as documented, and on the reference
    Jetson the only criterion is made with [size_average=False]. *)
Lemma printed_loss_is_sum_of_squares_witness :
  result (run_notebook Ref.jetson) = inr tt /\
  exists c, filter builds_criterion (trace (run_notebook Ref.jetson)) =
            [ Ev (MSELoss false) (inr c) ].
Proof.
  split; [exact RefFacts.completes_on_jetson|].
  destruct (@printed_loss_is_sum_of_squares Ref.objects Ref.runtime _ _ _ _ _ _ _
              Ref.jetson RefFacts.mse_as_documented)
    as (a & answers & _ & _ & H & _); [exact RefFacts.completes_on_jetson|].
  exists (a_loss_fn a). exact H.
Defined.

(** On the reference machine without a GPU the run is these six events,
    the last being the CUDA allocation that raised. *)
Lemma cuda_allocation_is_unguarded_witness :
  run_notebook Ref.cpu_only =
  Outcome
    [ Ev ImportTorch (inr tt); Ev TorchVersion (inr "0.3.0b0+af3964a");
      Print "0.3.0b0+af3964a"; Ev CudaIsAvailable (inr false);
      Print "CUDA available: False";
      Ev (NewTensor (TensorType CUDA Float) 2) (inl Ref.no_cuda) ]
    (State [] Ref.cpu_only) (inl (Raised Ref.no_cuda)).
Proof.
  apply (proj2 (proj2 (@cuda_allocation_is_unguarded Ref.objects Ref.runtime
                  Ref.cpu_only Ref.cpu_only
                  Ref.cpu_only Ref.cpu_only "0.3.0b0+af3964a" false
                  eq_refl eq_refl eq_refl)) Ref.no_cuda Ref.cpu_only eq_refl).
Defined.

(** On the reference Jetson the data of [x] and [y] are after the loop
    what they were before. *)
Lemma training_loop_changes_only_parameters_witness :
  let o := py_for "t" PInt (range 500) training_body Ref.loop_start in
  Ref.inputs (w (final o)) = Ref.inputs (w Ref.loop_start).
Proof.
  apply (@training_loop_changes_only_parameters Ref.objects Ref.runtime _
           Ref.inputs Ref.has_inputs Ref.model 0%nat 1%nat false Ref.loop_start).
  - repeat split.
  - unfold Ref.has_inputs. vm_compute. lia.
  - exact RefFacts.training_leaves_inputs.
Defined.

(** On the reference Jetson the default is set between the draw for [b]
    and the draws for [x] and [y], whose tensors are CUDA float tensors. *)
Lemma default_type_set_only_with_cuda_witness :
  default_type_documented Ref.default_type Ref.t_type /\
  result (run_notebook Ref.jetson) = inr tt /\
  exists b0 x0 y0,
    filter sets_or_draws (trace (run_notebook Ref.jetson)) =
    [ Ev (Randn [2]) (inr b0);
      Ev (SetDefaultTensorType "torch.cuda.FloatTensor") (inr tt);
      Ev (Randn [64; 1000]) (inr x0); Ev (Randn [64; 10]) (inr y0) ] /\
    Ref.t_type x0 = TensorType CUDA Float /\
    Ref.t_type y0 = TensorType CUDA Float.
Proof.
  split; [exact RefFacts.default_type_as_documented|].
  split; [exact RefFacts.completes_on_jetson|].
  pose proof (@default_type_set_only_with_cuda Ref.objects Ref.runtime
                Ref.default_type Ref.t_type Ref.jetson) as H.
  cbv zeta in H. destruct H as (_ & H & _).
  destruct (H RefFacts.completes_on_jetson)
    as (b0 & x0 & x & y0 & y & Hf & _ & _ & _ & _ & Ht).
  destruct (Ht RefFacts.default_type_as_documented) as (_ & Hx & Hy).
  rewrite RefFacts.use_cuda_on_jetson in Hf, Hx, Hy.
  exists b0, x0, y0. split; [exact Hf|]. split; [exact Hx|exact Hy].
Defined.

(** On the reference Jetson the first iteration is the six segments. *)
Lemma training_body_has_six_statements_witness :
  ready Ref.model 0%nat 1%nat false (ns Ref.first_iteration) /\
  lookup "t" (ns Ref.first_iteration) = Some (PInt 0) /\
  result (block training_body Ref.first_iteration) = inr tt /\
  exists a,
    run_each training_body Ref.first_iteration =
    step_segments Ref.model 0%nat 1%nat false 0 a.
Proof.
  split; [exact RefFacts.first_iteration_ready|]. split; [reflexivity|].
  split; [exact RefFacts.first_iteration_completes|].
  destruct (@training_body_has_six_statements Ref.objects Ref.runtime)
    as (_ & _ & H).
  destruct (H Ref.model 0%nat 1%nat false 0 Ref.first_iteration
              RefFacts.first_iteration_ready eq_refl) as (_ & _ & Hdone).
  exact (Hdone RefFacts.first_iteration_completes).
Defined.

(** C4, as stated, fails on a machine without CUDA.  Cells 1 and 5 run
    there get to the step and pass it by: the run completes with
    [use_cuda] bound to [False], no call sets the default tensor type,
    the default is what it was, and [d] is a CPU tensor.  The whole
    notebook run there stops in cell 4 and makes no such call either. *)
Lemma default_type_not_set_without_cuda :
  let o := run_cells [cell1; cell5] (fresh Ref.cpu_only) in
  result o = inr tt /\
  lookup "use_cuda" (ns (final o)) = Some (PBool false) /\
  filter is_set_default (trace o) = [] /\
  Ref.default_type (w (final o)) = Ref.default_type Ref.cpu_only /\
  filter is_tensor_of_rows (trace o) =
  [ Ev (TensorOfRows (TensorType CPU Float) [[1; 2; 3]; [4; 5; 6]])
       (inr (Ref.RTensor (Ref.Rows [[1; 2; 3]; [4; 5; 6]]) (TensorType CPU Float))) ] /\
  filter is_set_default (trace (run_notebook Ref.cpu_only)) = [].
Proof. vm_compute. repeat split. Qed.

(** C7, as stated, fails: the loop body is not five statements. *)
Lemma training_body_is_not_five_statements :
  length training_body <> 5%nat.
Proof. discriminate. Qed.

End OnRef.


(** ** The further properties on concrete machines *)

Module LimitedFacts.
Import Ref.
#[local] Existing Instance objects.
#[local] Existing Instance Limited.runtime.

Lemma setup_within_budget :
  result (run_cells setup_cells (fresh (70%nat, jetson))) = inr tt.
Proof. vm_compute. reflexivity. Qed.

Lemma stops_in_the_loop :
  result (run_notebook (70%nat, jetson)) = inl (Raised Limited.exhausted).
Proof. vm_compute. reflexivity. Qed.

End LimitedFacts.

Section OnMachines.
#[local] Existing Instance Ref.objects.

Section OnJetson.
#[local] Existing Instance Ref.runtime.

(** On the reference Jetson the run calls [print] 508 times. *)
Lemma completed_run_prints_508_times_witness :
  result (run_notebook Ref.jetson) = inr tt /\
  length (printed (trace (run_notebook Ref.jetson))) = 508%nat.
Proof.
  split; [exact RefFacts.completes_on_jetson|].
  destruct (@completed_run_prints_508_times Ref.objects Ref.runtime Ref.jetson)
    as (a & answers & _ & _ & H); [exact RefFacts.completes_on_jetson|exact H].
Defined.

Lemma availability_is_asked_twice_witness :
  result (run_notebook Ref.jetson) = inr tt /\
  exists shown used : bool,
    filter is_availability_query (trace (run_notebook Ref.jetson)) =
    [ Ev CudaIsAvailable (inr shown); Ev CudaIsAvailable (inr used) ].
Proof.
  split; [exact RefFacts.completes_on_jetson|].
  destruct (@availability_is_asked_twice Ref.objects Ref.runtime Ref.jetson)
    as (shown & used & H & _); [exact RefFacts.completes_on_jetson|].
  exists shown, used. exact H.
Defined.

Lemma c_is_a_plus_b_witness :
  result (run_notebook Ref.jetson) = inr tt /\
  exists a0 a b0 b c,
    filter gpu_arithmetic (trace (run_notebook Ref.jetson)) =
    [ Ev (NewTensor (TensorType CUDA Float) 2) (inr a0);
      Ev (Zero_ a0) (inr a);
      Ev (Cuda b0) (inr b);
      Ev (Add a b) (inr c) ].
Proof.
  split; [exact RefFacts.completes_on_jetson|].
  destruct (@c_is_a_plus_b Ref.objects Ref.runtime Ref.jetson)
    as (a0 & a & b0 & b & c & Hf & _); [exact RefFacts.completes_on_jetson|].
  exists a0, a, b0, b, c. exact Hf.
Defined.

Lemma tensor_classes_follow_use_cuda_witness :
  result (run_notebook Ref.jetson) = inr tt /\
  lookup "Tensor" (ns (final (run_notebook Ref.jetson))) =
  lookup "FloatTensor" (ns (final (run_notebook Ref.jetson))).
Proof.
  split; [exact RefFacts.completes_on_jetson|].
  destruct (@tensor_classes_follow_use_cuda Ref.objects Ref.runtime Ref.jetson)
    as (cuda & d & _ & _ & _ & _ & H & _);
    [exact RefFacts.completes_on_jetson|exact H].
Defined.

Lemma inputs_are_drawn_once_witness :
  result (run_notebook Ref.jetson) = inr tt /\
  exists b0 x0 y0,
    filter draws_random (trace (run_notebook Ref.jetson)) =
    [ Ev (Randn [2]) (inr b0); Ev (Randn [64; 1000]) (inr x0);
      Ev (Randn [64; 10]) (inr y0) ].
Proof.
  split; [exact RefFacts.completes_on_jetson|].
  destruct (@inputs_are_drawn_once Ref.objects Ref.runtime Ref.jetson)
    as (b0 & x0 & x & y0 & y & H & _); [exact RefFacts.completes_on_jetson|].
  exists b0, x0, y0. exact H.
Defined.

Lemma model_moved_only_with_cuda_witness :
  result (run_notebook Ref.jetson) = inr tt /\
  exists m,
    lookup "model" (ns (final (run_notebook Ref.jetson))) = Some (PModule m) /\
    Forall (fun m' => m' = m) (modules_used (trace (run_notebook Ref.jetson))).
Proof.
  split; [exact RefFacts.completes_on_jetson|].
  destruct (@model_moved_only_with_cuda Ref.objects Ref.runtime Ref.jetson)
    as (layers & m & _ & _ & Hm & Hu); [exact RefFacts.completes_on_jetson|].
  exists m. split; assumption.
Defined.

(** On a machine without torch the run is the failed import. *)
Lemma failed_import_ends_the_run_witness :
  let bare := Ref.Machine false false (TensorType CPU Float) 1 [] in
  run_notebook bare =
  Outcome [ Ev ImportTorch (inl Ref.no_torch) ] (State [] bare)
    (inl (Raised Ref.no_torch)).
Proof.
  cbn zeta.
  apply (@failed_import_ends_the_run Ref.objects Ref.runtime
           (Ref.Machine false false (TensorType CPU Float) 1 []) Ref.no_torch
           (Ref.Machine false false (TensorType CPU Float) 1 []) eq_refl).
Defined.

(** On the machine without a GPU, cell 4 stops the run. *)
Lemma failed_setup_trains_nothing_witness :
  result (run_cells setup_cells (fresh Ref.cpu_only)) =
  inl (@Raised Ref.objects Ref.no_cuda) /\
  lookup "learning_rate" (ns (final (run_notebook Ref.cpu_only))) = None.
Proof.
  split; [exact RefFacts.stops_without_gpu|].
  apply (@failed_setup_trains_nothing Ref.objects Ref.runtime Ref.cpu_only
           (@Raised Ref.objects Ref.no_cuda) RefFacts.stops_without_gpu).
Defined.

Lemma loop_variables_outlive_the_loop_witness :
  result (run_notebook Ref.jetson) = inr tt /\
  lookup "t" (ns (final (run_notebook Ref.jetson))) = Some (PInt 499).
Proof.
  split; [exact RefFacts.completes_on_jetson|].
  destruct (@loop_variables_outlive_the_loop Ref.objects Ref.runtime Ref.jetson)
    as (a & answers & final_step & _ & _ & H & _);
    [exact RefFacts.completes_on_jetson|exact H].
Defined.

Lemma training_cell_rerun_continues_witness :
  result (run_notebook Ref.jetson) = inr tt /\
  Forall (fun ev => training_event ev = true)
    (trace (block cell10 (final (run_notebook Ref.jetson)))).
Proof.
  split; [exact RefFacts.completes_on_jetson|].
  destruct (@training_cell_rerun_continues Ref.objects Ref.runtime Ref.jetson)
    as (a & answers & _ & H & _); [exact RefFacts.completes_on_jetson|exact H].
Defined.

(** In a fresh kernel cell 10 stops on [model]. *)
Lemma training_cell_needs_model_and_x_witness :
  let kernel := @fresh Ref.objects Ref.runtime Ref.jetson in
  lookup "model" (ns kernel) = None /\
  result (block cell10 kernel) = inl (NameError "model").
Proof.
  cbn zeta. split; [reflexivity|].
  rewrite (proj1 (@training_cell_needs_model_and_x Ref.objects Ref.runtime
                    (@fresh Ref.objects Ref.runtime Ref.jetson)) eq_refl).
  reflexivity.
Defined.

(** The loss line of iteration 7. *)
Lemma iteration_label_reads_back_witness :
  0 <= 7 < 1000 /\
  loss_line 7 42 = "iteration = 007, loss = 42" /\
  read_int (substring 12 3 (loss_line 7 42)) = Some 7.
Proof.
  split; [lia|]. split; [reflexivity|].
  apply (proj2 (@iteration_label_reads_back Ref.objects 7 42)). lia.
Defined.

End OnJetson.

Section OnLimited.
#[local] Existing Instance Limited.runtime.

(** With a budget of 70 calls the reference Jetson gets through cells 1
    to 9 and two iterations, and stops in the third. *)
Lemma failed_iteration_keeps_earlier_ones_witness :
  result (run_cells setup_cells (fresh (70%nat, Ref.jetson))) = inr tt /\
  result (run_notebook (70%nat, Ref.jetson)) =
  inl (@Raised Ref.objects Limited.exhausted) /\
  exists k,
    (k < 500)%nat /\
    lookup "t" (ns (final (run_notebook (70%nat, Ref.jetson)))) =
    Some (PInt (Z.of_nat k)).
Proof.
  split; [exact LimitedFacts.setup_within_budget|].
  split; [exact LimitedFacts.stops_in_the_loop|].
  destruct (@failed_iteration_keeps_earlier_ones Ref.objects Limited.runtime
              (70%nat, Ref.jetson) (@Raised Ref.objects Limited.exhausted)
              LimitedFacts.setup_within_budget LimitedFacts.stops_in_the_loop)
    as (a & k & answers & partial & e & Hk & _ & _ & _ & _ & _ & _ & Ht).
  exists k. split; assumption.
Defined.

End OnLimited.

End OnMachines.
